(** * Census manager: registry, auth gate and protocol dispatcher

    A shallow embedding of [service/census/censusmanager.go].  The package
    keeps two global maps indexed by census id ([MkTrees], [Signatures]) and
    a global signing key ([currentSignature]); the functions of the package
    are embedded as functions over an explicit [State].

    The merkle tree ([tree.Tree]), the signature scheme
    ([signature.SignKeys]) and the JSON codec are external packages: they
    are taken as interfaces ([TreeOps], [SignOps], [JsonOps]) and every
    result below is stated for an arbitrary implementation of them.  A small
    list-backed tree ([ListTree]) is provided to run the dispatcher on
    concrete requests. *)

From Stdlib Require Import ZArith Strings.Byte.
From stdpp Require Import gmap strings list fin_maps pretty.

Local Open Scope string_scope.
Local Open Scope Z_scope.

(** ** Go base types *)

(** A Go [error] value: [None] is [nil], [Some msg] is an error whose
    [Error()] text is [msg]. *)
Definition error : Type := option string.

(** Conversion to [int32], as done by [int32(time.Now().Unix())] and by
    arithmetic on [int32] operands: two's complement wrap-around. *)
Definition int32 (z : Z) : Z := (z + 2 ^ 31) mod 2 ^ 32 - 2 ^ 31.

(** [len(s)] of a Go string, in bytes. *)
Definition len (s : string) : Z := Z.of_nat (String.length s).

(** [[]byte(s)] *)
Definition bytes (s : string) : list byte := String.list_byte_of_string s.

(** ** Message types

    Modelled from the spec: the [types] package (CensusRequest,
    CensusResponse and their envelopes) is not part of the sources; the
    records below carry the fields the spec lists for the request, the
    response and their envelopes, with the names [censusmanager.go] uses to
    access them. *)

Module CensusRequest.
Record t : Type := mk {
  Method : string;
  CensusID : string;
  RootHash : string;
  ClaimData : string;
  ProofData : string;
  TimeStamp : Z
}.
End CensusRequest.

Module CensusResponse.
Record t : Type := mk {
  Ok : bool;
  Request : string;
  Error : string;
  Root : string;
  Siblings : string;
  Idx : string;
  ValidProof : bool;
  ClaimsData : list string;
  TimeStamp : Z
}.

(** [new(types.CensusResponse)]: every field at its zero value. *)
Definition new : t := mk false "" "" "" "" "" false [] 0.

Definition set_Ok (v : bool) (r : t) : t :=
  mk v (Request r) (Error r) (Root r) (Siblings r) (Idx r) (ValidProof r)
     (ClaimsData r) (TimeStamp r).
Definition set_Request (v : string) (r : t) : t :=
  mk (Ok r) v (Error r) (Root r) (Siblings r) (Idx r) (ValidProof r)
     (ClaimsData r) (TimeStamp r).
Definition set_Error (v : string) (r : t) : t :=
  mk (Ok r) (Request r) v (Root r) (Siblings r) (Idx r) (ValidProof r)
     (ClaimsData r) (TimeStamp r).
Definition set_Root (v : string) (r : t) : t :=
  mk (Ok r) (Request r) (Error r) v (Siblings r) (Idx r) (ValidProof r)
     (ClaimsData r) (TimeStamp r).
Definition set_Siblings (v : string) (r : t) : t :=
  mk (Ok r) (Request r) (Error r) (Root r) v (Idx r) (ValidProof r)
     (ClaimsData r) (TimeStamp r).
Definition set_Idx (v : string) (r : t) : t :=
  mk (Ok r) (Request r) (Error r) (Root r) (Siblings r) v (ValidProof r)
     (ClaimsData r) (TimeStamp r).
Definition set_ValidProof (v : bool) (r : t) : t :=
  mk (Ok r) (Request r) (Error r) (Root r) (Siblings r) (Idx r) v
     (ClaimsData r) (TimeStamp r).
Definition set_ClaimsData (v : list string) (r : t) : t :=
  mk (Ok r) (Request r) (Error r) (Root r) (Siblings r) (Idx r)
     (ValidProof r) v (TimeStamp r).
Definition set_TimeStamp (v : Z) (r : t) : t :=
  mk (Ok r) (Request r) (Error r) (Root r) (Siblings r) (Idx r)
     (ValidProof r) (ClaimsData r) v.
End CensusResponse.

Module CensusRequestMessage.
Record t : Type := mk {
  ID : string;
  Request : CensusRequest.t;
  Signature : string
}.
End CensusRequestMessage.

Module CensusResponseMessage.
Record t : Type := mk {
  ID : string;
  Response : CensusResponse.t;
  Signature : string
}.
End CensusResponseMessage.

(** ** External interfaces *)

(** The methods of [tree.Tree] the package calls.  [AddClaim] is the only
    one that writes to the tree: it returns the tree after the call next to
    its error.  The others are the read operations of the tree contract.
    [Snapshot] yields either the view at the requested root or an error. *)
Record TreeOps (Tree : Type) : Type := {
  Init : string -> Tree;
  AddClaim : Tree -> list byte -> Tree * error;
  GetRoot : Tree -> string;
  Snapshot : Tree -> string -> Tree + string;
  GenProof : Tree -> list byte -> string * error;
  GetIndex : Tree -> list byte -> string * error;
  Dump : Tree -> list string * error;
  CheckProof : Tree -> list byte -> string -> bool * error
}.
Arguments Init {Tree}.
Arguments AddClaim {Tree}.
Arguments GetRoot {Tree}.
Arguments Snapshot {Tree}.
Arguments GenProof {Tree}.
Arguments GetIndex {Tree}.
Arguments Dump {Tree}.
Arguments CheckProof {Tree}.

(** [signature.SignKeys]: [Verify(message, signHex, pubHex)] and
    [SignJSON(message)]. *)
Record SignOps : Type := {
  Verify : string -> string -> string -> bool * error;
  SignJSON : CensusResponse.t -> string * error
}.

(** [encoding/json]: decoding of a request body into a request message and
    encoding of a response message. *)
Record JsonOps : Type := {
  Decode : string -> CensusRequestMessage.t * error;
  Encode : CensusResponseMessage.t -> string * error
}.

(** ** Package state *)

(** Time window (seconds) in which TimeStamp will be accepted if auth
    enabled. *)
Definition authTimeWindow : Z := 10.

(** The package-level variables, and [authCalls]: the history of the
    invocations of [checkAuth] (timestamp, signed, pubKey, message), most
    recent first.  The history is not read by any function; it is there to
    state which paths go through the auth gate. *)
Record State (Tree : Type) : Type := mkState {
  MkTrees : gmap string Tree;
  Signatures : gmap string string;
  authCalls : list (Z * string * string * string)
}.
Arguments mkState {Tree}.
Arguments MkTrees {Tree}.
Arguments Signatures {Tree}.
Arguments authCalls {Tree}.

(** The state of a freshly loaded package: both maps are [nil] (which reads
    as an empty map). *)
Definition initial {Tree : Type} : State Tree := mkState ∅ ∅ [].

(** ** HTTP plumbing *)

(** What the handler reads of an [http.Request]: its body, if any. *)
Record HttpRequest : Type := { Body : option string }.

(** What the handler writes to the [http.ResponseWriter]: an error reply
    ([http.Error(w, text, code)]) or the encoded JSON document. *)
Inductive HttpResponse : Type :=
  | HttpError (text : string) (code : Z)
  | HttpJSON (body : string).

(** ** The package *)

Section CensusManager.
Context {Tree : Type}.
Variable T : TreeOps Tree.
Variable currentSignature : SignOps.
Variable json : JsonOps.

Import CensusRequest.

(** [AddNamespace] adds a new merkletree identified by a censusId (name). *)
Definition AddNamespace (name pubKey : string) (s : State Tree) : State Tree :=
  let mkTrees :=
    if bool_decide (size (MkTrees s) = 0%nat) then ∅ else MkTrees s in
  let signatures :=
    if bool_decide (size (Signatures s) = 0%nat) then ∅ else Signatures s in
  let mkTree := Init T name in
  mkState (<[name := mkTree]> mkTrees) (<[name := pubKey]> signatures)
          (authCalls s).

Definition httpReply (resp : CensusResponseMessage.t) : HttpResponse :=
  match Encode json resp with
  | (_, Some err) => HttpError err 500
  | (body, None) => HttpJSON body
  end.

(** [checkRequest]: the verdict, and what it wrote to the response
    writer. *)
Definition checkRequest (req : HttpRequest) : bool * option HttpResponse :=
  match Body req with
  | None => (false, Some (HttpError "Please send a request body" 400))
  | Some _ => (true, None)
  end.

(** [checkAuth]; [now] is the reading of [time.Now().Unix()]. *)
Definition checkAuth (now : Z) (timestamp : Z) (signed pubKey message : string)
    (s : State Tree) : bool * State Tree :=
  (* the call is entered in the history *)
  let s := mkState (MkTrees s) (Signatures s)
                   ((timestamp, signed, pubKey, message) :: authCalls s) in
  if len pubKey <? 1 then (true, s)
  else
    let currentTime := int32 now in
    if (timestamp <? int32 (currentTime + authTimeWindow))
       && (timestamp >? int32 (currentTime - authTimeWindow))
    then
      let '(v, err) := Verify currentSignature message signed pubKey in
      (* a non-nil [err] is logged *)
      (v, s)
    else (false, s).

(** The tree the methods with rootHash work on (lines 160-171): a
    snapshot if a rootHash is given, the current tree otherwise. *)
Definition treeView (live : Tree) (r : CensusRequest.t) : Tree + string :=
  if len (RootHash r) >? 1 then Snapshot T live (RootHash r) else inl live.

(** [Handler].  The result is [None] when the code would dereference a
    nil tree; [now] is the reading of [time.Now().Unix()]. *)
Definition Handler (now : Z) (r : CensusRequest.t) (isAuth : bool)
    (s : State Tree) : option (CensusResponse.t * State Tree) :=
  let resp := CensusResponse.new in
  let op := Method r in
  let resp := CensusResponse.set_Ok true resp in
  let resp := CensusResponse.set_Error "" resp in
  let resp := CensusResponse.set_TimeStamp (int32 now) resp in
  let censusFound :=
    existsb (fun k => String.eqb k (CensusID r)) (map_to_list (MkTrees s)).*1 in
  if negb censusFound then
    let resp := CensusResponse.set_Ok false resp in
    let resp := CensusResponse.set_Error "censusId not valid or not found" resp in
    Some (resp, s)
  else
    live ← MkTrees s !! CensusID r;
    if String.eqb op "getRoot" then
      Some (CensusResponse.set_Root (GetRoot T live) resp, s)
    else if String.eqb op "addClaim" then
      if isAuth then
        let '(live', err) := AddClaim T live (bytes (ClaimData r)) in
        let s' := mkState (<[CensusID r := live']> (MkTrees s))
                          (Signatures s) (authCalls s) in
        match err with
        | Some e =>
            let resp := CensusResponse.set_Ok false resp in
            let resp := CensusResponse.set_Error e resp in
            Some (resp, s')
        | None => Some (resp, s')
        end
      else
        let resp := CensusResponse.set_Ok false resp in
        let resp := CensusResponse.set_Error "invalid authentication" resp in
        Some (resp, s)
    else
      match treeView live r with
      | inr _ =>
          let resp := CensusResponse.set_Ok false resp in
          let resp := CensusResponse.set_Error "invalid root hash" resp in
          Some (resp, s)
      | inl t =>
          if String.eqb op "genProof" then
            let '(siblings, err) := GenProof T t (bytes (ClaimData r)) in
            let resp := CensusResponse.set_Siblings siblings resp in
            match err with
            | Some e =>
                let resp := CensusResponse.set_Ok false resp in
                let resp := CensusResponse.set_Error e resp in
                Some (resp, s)
            | None => Some (resp, s)
            end
          else if String.eqb op "getIdx" then
            let '(idx, err) := GetIndex T t (bytes (ClaimData r)) in
            Some (CensusResponse.set_Idx idx resp, s)
          else if String.eqb op "dump" then
            if negb isAuth then
              let resp := CensusResponse.set_Ok false resp in
              let resp := CensusResponse.set_Error "invalid authentication" resp in
              Some (resp, s)
            else
              let '(values, err) := Dump T t in
              match err with
              | Some e =>
                  let resp := CensusResponse.set_Ok false resp in
                  let resp := CensusResponse.set_Error e resp in
                  Some (resp, s)
              | None => Some (CensusResponse.set_ClaimsData values resp, s)
              end
          else if String.eqb op "checkProof" then
            if len (ProofData r) <? 1 then
              let resp := CensusResponse.set_Ok false resp in
              let resp := CensusResponse.set_Error "proofData not provided" resp in
              Some (resp, s)
            else
              let '(validProof, err) :=
                CheckProof T t (bytes (ClaimData r)) (ProofData r) in
              match err with
              | Some e =>
                  let resp := CensusResponse.set_Ok false resp in
                  let resp := CensusResponse.set_Error e resp in
                  Some (resp, s)
              | None =>
                  if validProof
                  then Some (CensusResponse.set_ValidProof true resp, s)
                  else Some (CensusResponse.set_ValidProof false resp, s)
              end
          else Some (resp, s)
      end.

(** [HTTPhandler]; [signer] is the key the response is signed with. *)
Definition HTTPhandler (now : Z) (req : HttpRequest) (signer : SignOps)
    (s : State Tree) : option (HttpResponse * State Tree) :=
  let '(ok, w) := checkRequest req in
  if negb ok then w ← w; Some (w, s)
  else
    body ← Body req;
    let '(rm, err) := Decode json body in
    match err with
    | Some e => Some (HttpError e 400, s)
    | None =>
        if len (Method (CensusRequestMessage.Request rm)) <? 1 then
          Some (HttpError "method must be specified" 400, s)
        else
          '(resp, s') ← Handler now (CensusRequestMessage.Request rm) true s;
          let response :=
            CensusResponse.set_Request (CensusRequestMessage.ID rm) resp in
          let '(sig, _) := SignJSON signer response in
          (* a non-nil signing error is logged *)
          let respMsg :=
            CensusResponseMessage.mk (CensusRequestMessage.ID rm) response sig in
          Some (httpReply respMsg, s')
    end.

End CensusManager.

Arguments AddNamespace {Tree} T name pubKey s.
Arguments checkAuth {Tree} currentSignature now timestamp signed pubKey message s.
Arguments treeView {Tree} T live r.
Arguments Handler {Tree} T now r isAuth s.
Arguments HTTPhandler {Tree} T json now req signer s.

(** ** A list-backed tree

    A small implementation of [TreeOps], used to run the dispatcher on
    concrete requests: the claims in insertion order.  The root commits to
    the whole list, so the historical roots are the roots of its prefixes. *)

Module ListTree.

Definition t : Type := list string.

Definition member (c : string) (tr : t) : bool := existsb (String.eqb c) tr.

Definition rootOf (tr : t) : string := String.concat "/" ("root" :: tr).

Fixpoint indexOf (c : string) (tr : t) : string :=
  match tr with
  | [] => ""
  | c' :: tr' => if String.eqb c c' then "#" else String.append "I" (indexOf c tr')
  end.

Fixpoint prefixes (tr : t) : list t :=
  match tr with
  | [] => [[]]
  | c :: tr' => [] :: map (cons c) (prefixes tr')
  end.

Definition init (name : string) : t := [].

Definition addClaim (tr : t) (data : list byte) : t * error :=
  let c := String.string_of_list_byte data in
  if member c tr then (tr, Some "claim already exists")
  else ((tr ++ [c])%list, None).

Definition snapshot (tr : t) (root : string) : t + string :=
  match List.find (fun p => String.eqb (rootOf p) root) (prefixes tr) with
  | Some p => inl p
  | None => inr "root not found"
  end.

Definition genProof (tr : t) (data : list byte) : string * error :=
  let c := String.string_of_list_byte data in
  if member c tr then (String.append "proof:" c, None)
  else ("", Some "claim not found").

Definition getIndex (tr : t) (data : list byte) : string * error :=
  let c := String.string_of_list_byte data in
  if member c tr then (indexOf c tr, None)
  else ("", Some "claim not found").

Definition dump (tr : t) : list string * error := (tr, None).

Definition checkProof (tr : t) (data : list byte) (proof : string) : bool * error :=
  let c := String.string_of_list_byte data in
  if String.prefix "proof:" proof
  then (String.eqb proof (String.append "proof:" c) && member c tr, None)
  else (false, Some "malformed proof").

Definition ops : TreeOps t :=
  {| Init := init; AddClaim := addClaim; GetRoot := rootOf;
     Snapshot := snapshot; GenProof := genProof; GetIndex := getIndex;
     Dump := dump; CheckProof := checkProof |}.

(** A signature scheme that accepts the signature ["valid"] and nothing
    else, and fails on an empty signature. *)
Definition signer : SignOps :=
  {| Verify := fun message signed pubKey =>
       if String.eqb signed "" then (false, Some "empty signature")
       else (String.eqb signed "valid", None);
     SignJSON := fun _ => ("signed", None) |}.

(** A codec for two request bodies: both carry the same addClaim
    request for ["bob"]; the second one has another timestamp and a made-up
    signature.  Responses are rendered field by field. *)
Definition codec : JsonOps :=
  {| Decode := fun body =>
       if String.eqb body "add-bob" then
         (CensusRequestMessage.mk "req1"
            (CensusRequest.mk "addClaim" "census1" "" "bob" "" 0) "", None)
       else if String.eqb body "add-bob-forged" then
         (CensusRequestMessage.mk "req1"
            (CensusRequest.mk "addClaim" "census1" "" "bob" "" 999) "forged",
          None)
       else
         (CensusRequestMessage.mk "" (CensusRequest.mk "" "" "" "" "" 0) "",
          Some "invalid character");
     Encode := fun m =>
       let resp := CensusResponseMessage.Response m in
       (String.concat "|"
          [CensusResponseMessage.ID m;
           if CensusResponse.Ok resp then "ok" else "failed";
           CensusResponse.Error resp; CensusResponse.Root resp;
           CensusResponse.Siblings resp; CensusResponse.Idx resp;
           CensusResponseMessage.Signature m], None) |}.

End ListTree.


(** A tree that fails less tidily than [ListTree]: a proof generation that
    fails returns the siblings collected so far next to its error, and a
    claim that is already there is refused with an error without text. *)
Definition untidyTree : TreeOps ListTree.t :=
  {| Init := ListTree.init;
     AddClaim := fun tr data =>
       if ListTree.member (String.string_of_list_byte data) tr
       then (tr, Some "") else ListTree.addClaim tr data;
     GetRoot := ListTree.rootOf;
     Snapshot := ListTree.snapshot;
     GenProof := fun tr data =>
       if ListTree.member (String.string_of_list_byte data) tr
       then ListTree.genProof tr data
       else ("partial", Some "proof generation failed");
     GetIndex := ListTree.getIndex;
     Dump := ListTree.dump;
     CheckProof := ListTree.checkProof |}.

(** A signature scheme that accepts every signature, and reports next to
    its verdict that the signature is not in canonical form. *)
Definition warningSigner : SignOps :=
  {| Verify := fun message signed pubKey =>
       (true, Some "signature is not in canonical form");
     SignJSON := fun _ => ("signed", None) |}.

(** ** Concrete scenario

    One census, ["census1"], managed with the key ["pubkey1"], holding the
    claim ["alice"]. *)

Definition request (method censusId rootHash claimData proofData : string)
  : CensusRequest.t :=
  CensusRequest.mk method censusId rootHash claimData proofData 0.

Definition census1_empty : State ListTree.t :=
  AddNamespace ListTree.ops "census1" "pubkey1" initial.

Definition census1_alice : State ListTree.t :=
  match Handler ListTree.ops 100 (request "addClaim" "census1" "" "alice" "")
                true census1_empty with
  | Some (_, s) => s
  | None => census1_empty
  end.

(** A second census, ["census2"], registered before ["alice"] is added to
    census1. *)
Definition two_censuses : State ListTree.t :=
  AddNamespace ListTree.ops "census2" "pubkey2" census1_empty.

Definition two_censuses_alice : State ListTree.t :=
  match Handler ListTree.ops 100 (request "addClaim" "census1" "" "alice" "")
                true two_censuses with
  | Some (_, s) => s
  | None => two_censuses
  end.

(** ** Properties stated by the specification *)

(** The claim of the specification on the auth window, at one call: with a
    non-empty key, [checkAuth] authorizes exactly when the timestamp lies in
    the closed window around [now] and the verification is valid without
    error. *)
Definition authorizes_in_closed_window (cs : SignOps) (now timestamp : Z)
    (signed pubKey message : string) (authorized : bool) : Prop :=
  authorized = true ↔
    (now - authTimeWindow <= timestamp <= now + authTimeWindow
     ∧ Verify cs message signed pubKey = (true, None)).

(** The claim of the specification on unauthorized requests, at one
    request: the response is [ok=false] with the error "invalid
    authentication". *)
Definition rejected_as_unauthenticated {Tree : Type} (T : TreeOps Tree)
    (now : Z) (r : CensusRequest.t) (s : State Tree) : Prop :=
  ∃ resp s',
    Handler T now r false s = Some (resp, s')
    ∧ CensusResponse.Ok resp = false
    ∧ CensusResponse.Error resp = "invalid authentication".

(** Two request messages that differ at most in their timestamp and
    signature fields. *)
Definition same_but_auth (rm1 rm2 : CensusRequestMessage.t) : Prop :=
  CensusRequestMessage.ID rm1 = CensusRequestMessage.ID rm2
  ∧ CensusRequest.Method (CensusRequestMessage.Request rm1)
    = CensusRequest.Method (CensusRequestMessage.Request rm2)
  ∧ CensusRequest.CensusID (CensusRequestMessage.Request rm1)
    = CensusRequest.CensusID (CensusRequestMessage.Request rm2)
  ∧ CensusRequest.RootHash (CensusRequestMessage.Request rm1)
    = CensusRequest.RootHash (CensusRequestMessage.Request rm2)
  ∧ CensusRequest.ClaimData (CensusRequestMessage.Request rm1)
    = CensusRequest.ClaimData (CensusRequestMessage.Request rm2)
  ∧ CensusRequest.ProofData (CensusRequestMessage.Request rm1)
    = CensusRequest.ProofData (CensusRequestMessage.Request rm2).

(** The message [HTTPhandler] builds around a response: the request id is
    echoed, and the response is signed with the service's key. *)
Definition responseMessage (signer : SignOps) (id : string)
    (resp : CensusResponse.t) : CensusResponseMessage.t :=
  let response := CensusResponse.set_Request id resp in
  CensusResponseMessage.mk id response (SignJSON signer response).1.

(** The response to a successful request that returns no data. *)
Definition success (now : Z) : CensusResponse.t :=
  CensusResponse.mk true "" "" "" "" "" false [] (int32 now).

(** The response to a failed request: [ok=false], the given error text, the
    response time, and nothing else. *)
Definition failure (now : Z) (text : string) : CensusResponse.t :=
  CensusResponse.mk false "" text "" "" "" false [] (int32 now).

(** The response carries no operation result. *)
Definition no_result (resp : CensusResponse.t) : Prop :=
  CensusResponse.Root resp = "" ∧ CensusResponse.Siblings resp = ""
  ∧ CensusResponse.Idx resp = "" ∧ CensusResponse.ClaimsData resp = []
  ∧ CensusResponse.ValidProof resp = false.

(** The claim of the specification on outcomes, at one response: [ok=true]
    with an empty error or [ok=false] with a non-empty one, and no result
    next to an error. *)
Definition one_outcome (resp : CensusResponse.t) : Prop :=
  ((CensusResponse.Ok resp = true ∧ CensusResponse.Error resp = "")
   ∨ (CensusResponse.Ok resp = false ∧ CensusResponse.Error resp ≠ ""))
  ∧ (CensusResponse.Error resp ≠ "" → no_result resp).

(** The error texts of the dispatcher's own. *)
Definition dispatcher_errors : list string :=
  ["censusId not valid or not found"; "invalid authentication";
   "invalid root hash"; "proofData not provided"].

(** The tree returned an error of text [e] to the operation the request
    asks for: [AddClaim] on the current tree, or [GenProof], [Dump],
    [CheckProof] on the view the dispatcher selected. *)
Definition tree_error {Tree : Type} (T : TreeOps Tree) (r : CensusRequest.t)
    (isAuth : bool) (live : Tree) (e : string) : Prop :=
  (CensusRequest.Method r = "addClaim" ∧ isAuth = true
   ∧ (AddClaim T live (bytes (CensusRequest.ClaimData r))).2 = Some e)
  ∨ ∃ t, treeView T live r = inl t
      ∧ ((CensusRequest.Method r = "genProof"
          ∧ (GenProof T t (bytes (CensusRequest.ClaimData r))).2 = Some e)
         ∨ (CensusRequest.Method r = "dump" ∧ isAuth = true
            ∧ (Dump T t).2 = Some e)
         ∨ (CensusRequest.Method r = "checkProof"
            ∧ CensusRequest.ProofData r ≠ ""
            ∧ (CheckProof T t (bytes (CensusRequest.ClaimData r))
                          (CensusRequest.ProofData r)).2 = Some e)).

(** The response carries the result of the requested method: what the tree
    returned, without error, on the view the dispatcher selected.  For
    getIdx only the case of an index returned without error is described. *)
Definition result_of {Tree : Type} (T : TreeOps Tree) (r : CensusRequest.t)
    (live : Tree) (resp : CensusResponse.t) : Prop :=
  (CensusRequest.Method r = "getRoot" →
     CensusResponse.Root resp = GetRoot T live)
  ∧ (CensusRequest.Method r = "genProof" → ∃ t, treeView T live r = inl t ∧
     GenProof T t (bytes (CensusRequest.ClaimData r))
     = (CensusResponse.Siblings resp, None))
  ∧ (CensusRequest.Method r = "getIdx" → ∃ t, treeView T live r = inl t ∧
     ∀ idx, GetIndex T t (bytes (CensusRequest.ClaimData r)) = (idx, None) →
            CensusResponse.Idx resp = idx)
  ∧ (CensusRequest.Method r = "dump" → ∃ t, treeView T live r = inl t ∧
     Dump T t = (CensusResponse.ClaimsData resp, None))
  ∧ (CensusRequest.Method r = "checkProof" → ∃ t, treeView T live r = inl t ∧
     CheckProof T t (bytes (CensusRequest.ClaimData r))
                (CensusRequest.ProofData r)
     = (CensusResponse.ValidProof resp, None)).

(** ** The indexer handlers

    A shallow embedding of the block and transaction handlers of
    [rpcapi/indexerhandlers.go].  The chain application, the transaction
    codec and the request and response types belong to other packages: the
    records below carry the fields and methods the handlers use.  A handler
    returns a response pointer and an error with exactly one of the two
    set: here a response ([inl]) or the text of the error ([inr]). *)

Module rpcapi.

Definition uint32 (z : Z) : Z := z mod 2 ^ 32.
Definition uint64 (z : Z) : Z := z mod 2 ^ 64.
Definition int64 (z : Z) : Z := (z + 2 ^ 63) mod 2 ^ 64 - 2 ^ 63.

(** [tmtypes.Block]: [Hash] stands for the method [Hash()], [LastBlockHash]
    for [LastBlockID.Hash]; a transaction is a byte string. *)
Module Block.
Record t : Type := mk {
  Height : Z;
  Time : Z;
  Hash : list byte;
  Txs : list (list byte);
  LastBlockHash : list byte;
  ProposerAddress : list byte
}.
End Block.

Module BlockMetadata.
Record t : Type := mk {
  Height : Z;
  Timestamp : Z;
  Hash : list byte;
  NumTxs : Z;
  LastBlockHash : list byte;
  ProposerAddress : list byte
}.
End BlockMetadata.

Module TxMetadata.
Record t : Type := mk {
  Type_ : string;
  Index : Z;
  Hash : list byte
}.
End TxMetadata.

(** The fields of [api.APIrequest] the handlers read: [ListSize] and [From]
    are [int], [Height] is [uint32]. *)
Module APIrequest.
Record t : Type := mk {
  ListSize : Z;
  From : Z;
  Height : Z
}.
End APIrequest.

(** The fields of [api.APIresponse] the handlers write; an entry of
    [BlockList] can be a nil pointer. *)
Module APIresponse.
Record t : Type := mk {
  Block : option BlockMetadata.t;
  BlockList : list (option BlockMetadata.t);
  TxList : list TxMetadata.t
}.
Definition zero : t := mk None [] [].
End APIresponse.

(** The payload of a [models.Tx], as far as the type switch tells the
    cases apart; an admin transaction carries the name of its txtype. *)
Inductive Payload : Type :=
  | Tx_Vote
  | Tx_NewProcess
  | Tx_Admin (txtype : string)
  | Tx_SetProcess
  | Tx_other.

(** The chain application ([vochain.BaseApplication]): the current height
    (a [uint32]) and the block at a height, if any. *)
Record App : Type := {
  Height : Z;
  GetBlockByHeight : Z -> option Block.t
}.

(** What the handlers take from their package and from [types], [proto]
    and [tmtypes]: the list bound, the names of the transaction types, the
    two decoders (of a signed transaction to its [Tx] bytes, of those to a
    payload) and the hash of a transaction. *)
Record Deps : Type := {
  MaxListSize : Z;
  TxVote : string;
  TxNewProcess : string;
  TxSetProcess : string;
  unmarshalSignedTx : list byte -> list byte + string;
  unmarshalTx : list byte -> Payload + string;
  txHash : list byte -> list byte
}.

(** [RPCAPI]: the application behind [r.vocapp], and the one behind
    [r.scrutinizer.App]. *)
Record RPCAPI : Type := {
  vocapp : App;
  scrutinizerApp : App
}.

Definition blockMetadataFromBlockModel (block : option Block.t)
    (includeHeight includeHash : bool) : option BlockMetadata.t :=
  match block with
  | None => None
  | Some block =>
      Some (BlockMetadata.mk
              (if includeHeight then uint32 (Block.Height block) else 0)
              (Block.Time block)
              (if includeHash then Block.Hash block else [])
              (uint64 (Z.of_nat (length (Block.Txs block))))
              (Block.LastBlockHash block)
              (Block.ProposerAddress block))
  end.

(** The loop of [getBlockList], at index [i] with [n] iterations left
    before [i] reaches [request.ListSize]. *)
Fixpoint getBlockList_loop (r : RPCAPI) (request : APIrequest.t) (n : nat)
    (i : Z) (blockList : list (option BlockMetadata.t))
    : list (option BlockMetadata.t) :=
  match n with
  | O => blockList
  | S n' =>
      if uint32 (uint32 (APIrequest.From request) + uint32 i)
         >? Height (vocapp r)
      then blockList
      else
        getBlockList_loop r request n' (i + 1)
          (blockList ++
           [blockMetadataFromBlockModel
              (GetBlockByHeight (scrutinizerApp r)
                 (int64 (int64 (APIrequest.From request) + int64 i)))
              true true])%list
  end.

Definition getBlockList (r : RPCAPI) (request : APIrequest.t)
    : APIresponse.t + string :=
  inl (APIresponse.mk None
         (getBlockList_loop r request
            (Z.to_nat (APIrequest.ListSize request)) 0 [])
         []).

(** The type switch on the payload of a transaction. *)
Definition txTypeName (d : Deps) (payload : Payload) : string :=
  match payload with
  | Tx_Vote => TxVote d
  | Tx_NewProcess => TxNewProcess d
  | Tx_Admin txtype => txtype
  | Tx_SetProcess => TxSetProcess d
  | Tx_other => "unknown"
  end.

(** The decoding of a transaction in the loop of [getTxListForBlock]
    (lines 175-196): the name of its type, or the error returned. *)
Definition decodeTxType (d : Deps) (raw : list byte) : string + string :=
  match unmarshalSignedTx d raw with
  | inr err => inr ("cannot get signed tx: " +:+ err)
  | inl signedTx =>
      match unmarshalTx d signedTx with
      | inr err => inr ("cannot get tx: " +:+ err)
      | inl payload => inl (txTypeName d payload)
      end
  end.

(** The loop of [getTxListForBlock], at index [i] with [n] iterations
    left before [i] reaches [maxIndex].  The result is [None] when
    [block.Txs[i]] is out of range. *)
Fixpoint getTxListForBlock_loop (d : Deps) (txs : list (list byte)) (n : nat)
    (i maxIndex : Z) (txList : list TxMetadata.t)
    : option (list TxMetadata.t + string) :=
  match n with
  | O => Some (inl txList)
  | S n' =>
      if (i <? maxIndex) && (i <? Z.of_nat (length txs)) then
        raw ← (if i <? 0 then None else txs !! Z.to_nat i);
        match decodeTxType d raw with
        | inr err => Some (inr err)
        | inl txType =>
            getTxListForBlock_loop d txs n' (i + 1) maxIndex
              (txList ++
               [TxMetadata.mk txType (int32 i) (txHash d raw)])%list
        end
      else Some (inl txList)
  end.

(** [getTxListForBlock]; the result is [None] when the handler indexes
    [block.Txs] out of range. *)
Definition getTxListForBlock (d : Deps) (r : RPCAPI) (request : APIrequest.t)
    : option (APIresponse.t + string) :=
  match GetBlockByHeight (vocapp r) (int64 (APIrequest.Height request)) with
  | None => Some (inr "cannot get tx list: (block does not exist)")
  | Some block =>
      let listSize :=
        if (APIrequest.ListSize request >? MaxListSize d)
           || (APIrequest.ListSize request <=? 0)
        then MaxListSize d else APIrequest.ListSize request in
      let maxIndex := int64 (APIrequest.From request + listSize) in
      match getTxListForBlock_loop d (Block.Txs block)
              (Z.to_nat (maxIndex - APIrequest.From request))
              (APIrequest.From request) maxIndex [] with
      | None => None
      | Some (inr err) => Some (inr err)
      | Some (inl txList) => Some (inl (APIresponse.mk None [] txList))
      end
  end.

(** The metadata of the transactions [raws], the first of which has index
    [i] in its block; the error of the first one that does not decode. *)
Fixpoint txMetadataFrom (d : Deps) (i : Z) (raws : list (list byte))
    : list TxMetadata.t + string :=
  match raws with
  | [] => inl []
  | raw :: rest =>
      match decodeTxType d raw with
      | inr err => inr err
      | inl txType =>
          match txMetadataFrom d (i + 1) rest with
          | inr err => inr err
          | inl l => inl (TxMetadata.mk txType (int32 i) (txHash d raw) :: l)
          end
      end
  end.

(** The list size [getTxListForBlock] works with. *)
Definition listSize (d : Deps) (request : APIrequest.t) : Z :=
  if (APIrequest.ListSize request >? MaxListSize d)
     || (APIrequest.ListSize request <=? 0)
  then MaxListSize d else APIrequest.ListSize request.

(** A chain of three blocks, at heights 1 to 3; the block at height [h]
    holds [h] transactions.  A transaction is one byte: ["v"] a vote, ["p"]
    a new process, anything else an unknown payload. *)
Definition sampleTx (c : string) : list byte := String.list_byte_of_string c.

Definition sampleBlock (h : Z) : Block.t :=
  Block.mk h (1600000000 + h) (sampleTx "hash")
           (take (Z.to_nat h) [sampleTx "v"; sampleTx "p"; sampleTx "x"])
           (sampleTx "prev") (sampleTx "node").

Definition sampleApp : App :=
  {| Height := 3;
     GetBlockByHeight := fun h =>
       if (1 <=? h) && (h <=? 3) then Some (sampleBlock h) else None |}.

Definition sampleRPC : RPCAPI := {| vocapp := sampleApp; scrutinizerApp := sampleApp |}.

Definition sampleDeps : Deps :=
  {| MaxListSize := 64;
     TxVote := "vote"; TxNewProcess := "newProcess"; TxSetProcess := "setProcess";
     unmarshalSignedTx := fun raw =>
       match raw with [] => inr "unexpected EOF" | _ => inl raw end;
     unmarshalTx := fun tx =>
       if String.eqb (String.string_of_list_byte tx) "v" then inl Tx_Vote
       else if String.eqb (String.string_of_list_byte tx) "p" then inl Tx_NewProcess
       else inl Tx_other;
     txHash := fun raw => (raw ++ raw)%list |}.

End rpcapi.

(** ** Sequences of calls

    What another package can do with this one: call its exported functions
    [AddNamespace], [Handler] and [HTTPhandler], in any order.  [checkAuth]
    is not exported. *)

Inductive Call : Type :=
  | CallAddNamespace (name pubKey : string)
  | CallHandler (now : Z) (r : CensusRequest.t) (isAuth : bool)
  | CallHTTPhandler (now : Z) (req : HttpRequest) (signer : SignOps).

(** The state after one call; [None] when the call dereferences nil. *)
Definition call {Tree : Type} (T : TreeOps Tree) (json : JsonOps) (c : Call)
    (s : State Tree) : option (State Tree) :=
  match c with
  | CallAddNamespace name pubKey => Some (AddNamespace T name pubKey s)
  | CallHandler now r isAuth => snd <$> Handler T now r isAuth s
  | CallHTTPhandler now req signer => snd <$> HTTPhandler T json now req signer s
  end.

Fixpoint calls {Tree : Type} (T : TreeOps Tree) (json : JsonOps)
    (cs : list Call) (s : State Tree) : option (State Tree) :=
  match cs with
  | [] => Some s
  | c :: cs' => s' ← call T json c s; calls T json cs' s'
  end.

(** A request is malformed for [HTTPhandler]: no body, a body that does
    not decode, or a decoded message without method. *)
Definition malformed (json : JsonOps) (req : HttpRequest) : Prop :=
  match Body req with
  | None => True
  | Some body =>
      (Decode json body).2 ≠ None
      ∨ CensusRequest.Method (CensusRequestMessage.Request (Decode json body).1) = ""
  end.

(** The two maps of the package have the same keys, and the auth gate was
    never called. *)
Definition registry_inv {Tree : Type} (s : State Tree) : Prop :=
  dom (MkTrees s) = dom (Signatures s) ∧ authCalls s = [].

(** ** Auxiliary results *)

Section Facts.
Context {Tree : Type}.
Variable T : TreeOps Tree.

Lemma int32_id (z : Z) : - 2 ^ 31 <= z < 2 ^ 31 → int32 z = z.
Proof. intros Hz. unfold int32. rewrite Z.mod_small; lia. Qed.

(** The search loop over the keys of [MkTrees] finds exactly the
    registered ids. *)
Lemma censusFound_spec (m : gmap string Tree) (id : string) :
  existsb (fun k => String.eqb k id) (map_to_list m).*1 = true
  ↔ is_Some (m !! id).
Proof.
  rewrite existsb_exists. split.
  - intros (k & Hin & Hk). apply String.eqb_eq in Hk as ->.
    apply list_elem_of_In, list_elem_of_fmap in Hin as ([k v] & -> & Hkv).
    apply elem_of_map_to_list in Hkv. eauto.
  - intros [v Hv]. exists id. split; [|apply String.eqb_refl].
    apply list_elem_of_In, list_elem_of_fmap. exists (id, v). split; [done|].
    by apply elem_of_map_to_list.
Qed.

Lemma len_lt_1 (x : string) : (len x <? 1) = true ↔ x = "".
Proof.
  unfold len. destruct x; simpl; [done|].
  split; [|done]. intros H. apply Z.ltb_lt in H. lia.
Qed.

Lemma len_ge_1 (x : string) : (len x <? 1) = false ↔ x ≠ "".
Proof. rewrite <- len_lt_1. by destruct (len x <? 1). Qed.

Lemma censusFound_Some (m : gmap string Tree) (id : string) (v : Tree) :
  m !! id = Some v → existsb (fun k => String.eqb k id) (map_to_list m).*1 = true.
Proof. intros H. apply censusFound_spec. eauto. Qed.

Lemma censusFound_None (m : gmap string Tree) (id : string) :
  m !! id = None → existsb (fun k => String.eqb k id) (map_to_list m).*1 = false.
Proof.
  intros H. apply not_true_is_false. rewrite censusFound_spec, H.
  by intros [? ?].
Qed.

Lemma Handler_unregistered now r isAuth (s : State Tree) :
  MkTrees s !! CensusRequest.CensusID r = None →
  Handler T now r isAuth s
  = Some (failure now "censusId not valid or not found", s).
Proof. intros H. unfold Handler. by rewrite (censusFound_None _ _ H). Qed.

End Facts.

(** The scenario: census1 holds exactly the claim of alice. *)
Example census1_alice_tree : MkTrees census1_alice !! "census1" = Some ["alice"].
Proof. vm_compute. reflexivity. Qed.

(** Unfolds [Handler] on a registered census, [H : MkTrees s !! id = Some live]. *)
Ltac handler_registered H :=
  unfold Handler;
  rewrite (censusFound_Some _ _ _ H); cbn [negb];
  rewrite H; cbn [mbind option_bind].

(** Splits the goal along the branches [Handler] takes. *)
Ltac handler_branches :=
  repeat (case_match; simplify_eq/=).

(** Proves [result_of] for the response of the branch at hand: the method
    tests made so far are in the context. *)
Ltac result_here :=
  let Hm := fresh "Hm" in
  intros ? ?; simplify_eq/=; unfold result_of;
  repeat split; intros Hm; rewrite Hm in *; simplify_eq/=;
  try (eexists; split; [done|]; simpl; try done).

Section Dispatcher.
Context {Tree : Type}.
Variable T : TreeOps Tree.

(** [Handler] never dereferences a nil tree: it always returns. *)
Lemma Handler_returns now r isAuth (s : State Tree) :
  is_Some (Handler T now r isAuth s).
Proof.
  destruct (MkTrees s !! CensusRequest.CensusID r) as [live|] eqn:Hlive.
  - handler_registered Hlive. handler_branches; eauto.
  - rewrite (Handler_unregistered _ _ _ _ _ Hlive). eauto.
Qed.

Lemma Handler_state now r isAuth (s s' : State Tree) resp :
  Handler T now r isAuth s = Some (resp, s') →
  s' = s
  ∨ (CensusRequest.Method r = "addClaim" ∧ isAuth = true
     ∧ ∃ live, MkTrees s !! CensusRequest.CensusID r = Some live
         ∧ s' = mkState
              (<[CensusRequest.CensusID r :=
                   (AddClaim T live (bytes (CensusRequest.ClaimData r))).1]>
                 (MkTrees s))
              (Signatures s) (authCalls s)).
Proof.
  destruct (MkTrees s !! CensusRequest.CensusID r) as [live|] eqn:Hlive.
  - handler_registered Hlive. intros H.
    destruct (String.eqb (CensusRequest.Method r) "getRoot") eqn:E1;
      [left; congruence|].
    destruct (String.eqb (CensusRequest.Method r) "addClaim") eqn:E2.
    + apply String.eqb_eq in E2. destruct isAuth; [|left; congruence].
      right. split; [done|]. split; [done|]. exists live. split; [done|].
      destruct (AddClaim T live _) as [live' [e|]]; simpl; congruence.
    + left. revert H. handler_branches; congruence.
  - rewrite (Handler_unregistered _ _ _ _ _ Hlive). left. congruence.
Qed.

End Dispatcher.

(** ** The dispatcher *)

(** C7. A request whose censusId is not registered is answered with
    [ok=false] and the error "censusId not valid or not found", whatever its
    method, its other fields and the authorization flag (so the check comes
    before every other validation step); no state is changed. *)
Theorem Handler_unknown_census {Tree : Type} (T : TreeOps Tree) (now : Z)
    (r : CensusRequest.t) (isAuth : bool) (s : State Tree) :
  CensusRequest.CensusID r ∉ dom (MkTrees s) →
  Handler T now r isAuth s
  = Some (failure now "censusId not valid or not found", s).
Proof.
  intros Hdom. apply Handler_unregistered. by apply not_elem_of_dom.
Qed.

Lemma Handler_unknown_census_witness :
  Handler ListTree.ops 100 (request "checkProof" "census2" "zz" "alice" "")
          false census1_alice
  = Some (failure 100 "censusId not valid or not found", census1_alice).
Proof.
  apply (Handler_unknown_census ListTree.ops 100
           (request "checkProof" "census2" "zz" "alice" "") false census1_alice).
  apply not_elem_of_dom. vm_compute. reflexivity.
Defined.

(** C10. Handling a request always returns, and leaves the registry as it
    was: the management keys, the set of registered census ids and every
    tree other than the target's are unchanged.  The state changes at most
    by an authorized addClaim, which replaces the target's tree by the tree
    after [AddClaim]. *)
Theorem Handler_frame {Tree : Type} (T : TreeOps Tree) (now : Z)
    (r : CensusRequest.t) (isAuth : bool) (s : State Tree) :
  ∃ resp s',
    Handler T now r isAuth s = Some (resp, s')
    ∧ Signatures s' = Signatures s
    ∧ dom (MkTrees s') = dom (MkTrees s)
    ∧ (∀ id, id ≠ CensusRequest.CensusID r → MkTrees s' !! id = MkTrees s !! id)
    ∧ (s' = s
       ∨ (CensusRequest.Method r = "addClaim" ∧ isAuth = true
          ∧ ∃ live, MkTrees s !! CensusRequest.CensusID r = Some live
              ∧ MkTrees s' !! CensusRequest.CensusID r
                = Some (AddClaim T live (bytes (CensusRequest.ClaimData r))).1)).
Proof.
  destruct (Handler_returns T now r isAuth s) as [[resp s'] H].
  exists resp, s'. split; [done|].
  destruct (Handler_state T _ _ _ _ _ _ H) as [->|(Hm & Ha & live & Hl & ->)].
  - repeat split; auto.
  - simpl. repeat split.
    + apply set_eq. intros k. rewrite dom_insert_L, elem_of_union, elem_of_singleton.
      split; [|tauto]. intros [->|]; [|done]. apply elem_of_dom. eauto.
    + intros id Hid. by rewrite lookup_insert_ne.
    + right. repeat split; auto. exists live. split; [done|].
      by rewrite lookup_insert_eq.
Qed.

(** C6, as stated, fails.  When [GenProof] returns siblings next to its
    error, the response carries both the siblings and the error; and an
    error of the tree without text gives [ok=false] with an empty error. *)
Lemma Handler_outcome_not_as_claimed :
  (∃ resp s',
     Handler untidyTree 100 (request "genProof" "census1" "" "bob" "") true
             census1_alice = Some (resp, s')
     ∧ CensusResponse.Error resp = "proof generation failed"
     ∧ CensusResponse.Siblings resp = "partial"
     ∧ ¬ one_outcome resp)
  ∧ (∃ resp s',
       Handler untidyTree 100 (request "addClaim" "census1" "" "alice" "") true
               census1_alice = Some (resp, s')
       ∧ CensusResponse.Ok resp = false
       ∧ CensusResponse.Error resp = ""
       ∧ ¬ one_outcome resp).
Proof.
  split; eexists _, _; (split; [vm_compute; reflexivity|]); simpl;
    (split; [reflexivity|]); (split; [reflexivity|]).
  - intros [_ H]. destruct H as (_ & Hs & _); [discriminate|discriminate Hs].
  - intros [[[H _]|[_ H]] _]; [discriminate H|by apply H].
Qed.

(** C6, amended. Every request gets a response.  If [ok=true], the error is
    empty and, for getRoot, genProof, dump and checkProof, the field of the
    method holds what the tree returned without error (for getIdx, the
    index when the tree returned it without error).  If [ok=false], the
    error is one of the dispatcher's own non-empty texts or, verbatim, the
    text of the error the tree returned to the requested operation; root,
    idx, claimsData and validProof are unset, and siblings is empty unless
    the method is genProof and [GenProof] returned it next to that error. *)
Theorem Handler_one_outcome {Tree : Type} (T : TreeOps Tree) (now : Z)
    (r : CensusRequest.t) (isAuth : bool) (s : State Tree) :
  ∃ resp s',
    Handler T now r isAuth s = Some (resp, s')
    ∧ (CensusResponse.Ok resp = true →
       CensusResponse.Error resp = ""
       ∧ ∀ live, MkTrees s !! CensusRequest.CensusID r = Some live →
                 result_of T r live resp)
    ∧ (CensusResponse.Ok resp = false →
       (CensusResponse.Error resp ∈ dispatcher_errors
        ∨ ∃ live, MkTrees s !! CensusRequest.CensusID r = Some live
                  ∧ tree_error T r isAuth live (CensusResponse.Error resp))
       ∧ CensusResponse.Root resp = "" ∧ CensusResponse.Idx resp = ""
       ∧ CensusResponse.ClaimsData resp = []
       ∧ CensusResponse.ValidProof resp = false
       ∧ (CensusResponse.Siblings resp = ""
          ∨ (CensusRequest.Method r = "genProof"
             ∧ ∃ live t,
                 MkTrees s !! CensusRequest.CensusID r = Some live
                 ∧ treeView T live r = inl t
                 ∧ GenProof T t (bytes (CensusRequest.ClaimData r))
                   = (CensusResponse.Siblings resp,
                      Some (CensusResponse.Error resp))))).
Proof.
  destruct (MkTrees s !! CensusRequest.CensusID r) as [live|] eqn:Hlive.
  2:{ rewrite (Handler_unregistered _ _ _ _ _ Hlive).
      eexists _, _. split; [done|]. simpl. split; [done|]. intros _.
      split; [left; unfold dispatcher_errors; set_solver|]. by repeat split; auto. }
  handler_registered Hlive.
  destruct (String.eqb (CensusRequest.Method r) "getRoot") eqn:E1.
  { eexists _, _. split; [done|]. simpl. split; [|done]. intros _.
    split; [done|]. result_here. }
  destruct (String.eqb (CensusRequest.Method r) "addClaim") eqn:E2.
  { apply String.eqb_eq in E2. destruct isAuth.
    - destruct (AddClaim T live _) as [live' [e|]] eqn:Ha; simpl in *.
      + eexists _, _. split; [done|]. simpl. split; [done|]. intros _.
        split; [|by repeat split; auto].
        right. exists live. split; [done|]. left. by rewrite Ha.
      + eexists _, _. split; [done|]. simpl. split; [|done]. intros _.
        split; [done|]. result_here.
    - eexists _, _. split; [done|]. simpl. split; [done|]. intros _.
      split; [left; unfold dispatcher_errors; set_solver|]. by repeat split; auto. }
  destruct (treeView T live r) as [t|e] eqn:Hview.
  2:{ eexists _, _. split; [done|]. simpl. split; [done|]. intros _.
      split; [left; unfold dispatcher_errors; set_solver|]. by repeat split; auto. }
  destruct (String.eqb (CensusRequest.Method r) "genProof") eqn:E3.
  { apply String.eqb_eq in E3.
    destruct (GenProof T t _) as [sib [e|]] eqn:Hg; simpl in *.
    - eexists _, _. split; [done|]. simpl. split; [done|]. intros _.
      split; [right; exists live; split; [done|]; right; exists t;
              split; [done|]; left; by rewrite Hg|].
      repeat split; auto. right. split; [done|]. by exists live, t.
    - eexists _, _. split; [done|]. simpl. split; [|done]. intros _.
      split; [done|]. result_here. }
  destruct (String.eqb (CensusRequest.Method r) "getIdx") eqn:E4.
  { destruct (GetIndex T t _) as [idx e] eqn:Hg.
    eexists _, _. split; [done|]. simpl. split; [|done]. intros _.
    split; [done|]. result_here. intros idx' Hidx. congruence. }
  destruct (String.eqb (CensusRequest.Method r) "dump") eqn:E5.
  { apply String.eqb_eq in E5. destruct isAuth; simpl.
    - destruct (Dump T t) as [values [e|]] eqn:Hd; simpl in *.
      + eexists _, _. split; [done|]. simpl. split; [done|]. intros _.
        split; [|by repeat split; auto].
        right. exists live. split; [done|]. right. exists t. split; [done|].
        right. left. by rewrite Hd.
      + eexists _, _. split; [done|]. simpl. split; [|done]. intros _.
        split; [done|]. result_here.
    - eexists _, _. split; [done|]. simpl. split; [done|]. intros _.
      split; [left; unfold dispatcher_errors; set_solver|]. by repeat split; auto. }
  destruct (String.eqb (CensusRequest.Method r) "checkProof") eqn:E6.
  { apply String.eqb_eq in E6.
    destruct (len (CensusRequest.ProofData r) <? 1) eqn:Hp.
    { eexists _, _. split; [done|]. simpl. split; [done|]. intros _.
      split; [left; unfold dispatcher_errors; set_solver|]. by repeat split; auto. }
    apply len_ge_1 in Hp.
    destruct (CheckProof T t _ _) as [v [e|]] eqn:Hc; simpl in *.
    - eexists _, _. split; [done|]. simpl. split; [done|]. intros _.
      split; [|by repeat split; auto].
      right. exists live. split; [done|]. right. exists t. split; [done|].
      right. right. by rewrite Hc.
    - destruct v; (eexists _, _; split; [done|]; simpl; split; [|done];
        intros _; split; [done|]; result_here). }
  eexists _, _. split; [done|]. simpl. split; [|done]. intros _.
  split; [done|]. result_here.
Qed.

(** C9. A checkProof request on a registered census with empty proofData is
    rejected ([ok=false], non-empty error).  With non-empty proofData, when
    the tree checks the proof on the selected view without error, the
    response is [ok=true] and validProof is the tree's verdict: an invalid
    proof gives [ok=true, validProof=false], not an error. *)
Theorem Handler_checkProof {Tree : Type} (T : TreeOps Tree) (now : Z)
    (r : CensusRequest.t) (isAuth : bool) (s : State Tree) (live : Tree) :
  MkTrees s !! CensusRequest.CensusID r = Some live →
  CensusRequest.Method r = "checkProof" →
  (CensusRequest.ProofData r = "" →
     ∃ resp, Handler T now r isAuth s = Some (resp, s)
             ∧ CensusResponse.Ok resp = false ∧ CensusResponse.Error resp ≠ "")
  ∧ (CensusRequest.ProofData r ≠ "" →
     ∀ t verdict,
       treeView T live r = inl t →
       CheckProof T t (bytes (CensusRequest.ClaimData r))
                  (CensusRequest.ProofData r) = (verdict, None) →
       Handler T now r isAuth s
       = Some (CensusResponse.set_ValidProof verdict (success now), s)).
Proof.
  intros Hlive Hm. split.
  - intros Hp. handler_registered Hlive. rewrite Hm. simpl.
    destruct (treeView T live r); [|by eexists].
    apply len_lt_1 in Hp. rewrite Hp. by eexists.
  - intros Hp t verdict Hview Hcheck. handler_registered Hlive.
    rewrite Hm, Hview. simpl. apply len_ge_1 in Hp. rewrite Hp, Hcheck.
    by destruct verdict.
Qed.

Lemma Handler_checkProof_witness :
  Handler ListTree.ops 100
          (request "checkProof" "census1" "" "bob" "proof:alice") false
          census1_alice
  = Some (CensusResponse.set_ValidProof false (success 100), census1_alice).
Proof.
  refine (proj2 (Handler_checkProof ListTree.ops 100
           (request "checkProof" "census1" "" "bob" "proof:alice") false
           census1_alice ["alice"] _ _) _ ["alice"] false _ _).
  - vm_compute. reflexivity.
  - reflexivity.
  - simpl. discriminate.
  - vm_compute. reflexivity.
  - vm_compute. reflexivity.
Defined.

(** C8, as stated, fails: an unauthorized dump that names a root hash the
    tree cannot snapshot is answered "invalid root hash". *)
Lemma Handler_unauthorized_dump_bad_root :
  CensusRequest.Method (request "dump" "census1" "zz" "" "") = "dump"
  ∧ is_Some (MkTrees census1_alice !! "census1")
  ∧ ¬ rejected_as_unauthenticated ListTree.ops 100
        (request "dump" "census1" "zz" "" "") census1_alice.
Proof.
  split; [reflexivity|]. split; [vm_compute; eauto|].
  intros (resp & s' & H & _ & Herr). vm_compute in H.
  injection H as <- _. discriminate Herr.
Qed.

(** C8, amended. On a registered census, an addClaim with the
    authorization flag false is answered [ok=false], "invalid
    authentication".  So is a dump with the flag false when no rootHash is
    given, or when the rootHash is longer than one byte and the tree can
    snapshot it; when the rootHash is longer than one byte and its snapshot
    fails, the dump is answered "invalid root hash".  In every case the
    state, hence the tree, is unchanged.  (Nothing is stated on a dump with
    a rootHash of one byte.) *)
Theorem Handler_unauthorized {Tree : Type} (T : TreeOps Tree) (now : Z)
    (r : CensusRequest.t) (s : State Tree) (live : Tree) :
  MkTrees s !! CensusRequest.CensusID r = Some live →
  (CensusRequest.Method r = "addClaim" →
     Handler T now r false s = Some (failure now "invalid authentication", s))
  ∧ (CensusRequest.Method r = "dump" →
     (CensusRequest.RootHash r = "" →
        Handler T now r false s
        = Some (failure now "invalid authentication", s))
     ∧ (len (CensusRequest.RootHash r) > 1 →
        (∀ t, Snapshot T live (CensusRequest.RootHash r) = inl t →
              Handler T now r false s
              = Some (failure now "invalid authentication", s))
        ∧ (∀ e, Snapshot T live (CensusRequest.RootHash r) = inr e →
                Handler T now r false s
                = Some (failure now "invalid root hash", s)))).
Proof.
  intros Hlive. split; intros Hm; handler_registered Hlive; rewrite Hm; simpl.
  - done.
  - unfold treeView. split.
    + by intros ->.
    + intros Hlen. apply Z.gt_lt, Z.ltb_lt in Hlen. rewrite Z.gtb_ltb, Hlen.
      split; [intros t Hs|intros e Hs]; by rewrite Hs.
Qed.

Lemma Handler_unauthorized_witness :
  Handler ListTree.ops 100 (request "addClaim" "census1" "" "bob" "") false
          census1_alice
  = Some (failure 100 "invalid authentication", census1_alice)
  ∧ Handler ListTree.ops 100 (request "dump" "census1" "root" "" "") false
            census1_alice
    = Some (failure 100 "invalid authentication", census1_alice)
  ∧ Handler ListTree.ops 100 (request "dump" "census1" "zz" "" "") false
            census1_alice
    = Some (failure 100 "invalid root hash", census1_alice).
Proof.
  split; [|split].
  - refine (proj1 (Handler_unauthorized ListTree.ops 100
             (request "addClaim" "census1" "" "bob" "") census1_alice ["alice"]
             _) _); [vm_compute; reflexivity | reflexivity].
  - refine (proj1 (proj2 (proj2 (Handler_unauthorized ListTree.ops 100
             (request "dump" "census1" "root" "" "") census1_alice ["alice"]
             _) _) _) [] _).
    + vm_compute. reflexivity.
    + reflexivity.
    + vm_compute. reflexivity.
    + vm_compute. reflexivity.
  - refine (proj2 (proj2 (proj2 (Handler_unauthorized ListTree.ops 100
             (request "dump" "census1" "zz" "" "") census1_alice ["alice"]
             _) _) _) "root not found" _).
    + vm_compute. reflexivity.
    + reflexivity.
    + vm_compute. reflexivity.
    + vm_compute. reflexivity.
Defined.

(** *** Tree views and tree errors *)

(** Without a rootHash the methods work on the current tree. *)
Lemma treeView_absent {Tree : Type} (T : TreeOps Tree) (live : Tree)
    (r : CensusRequest.t) :
  CensusRequest.RootHash r = "" → treeView T live r = inl live.
Proof. intros H. unfold treeView. by rewrite H. Qed.

(** X12. A rootHash of at least two bytes that the tree cannot snapshot is
    answered "invalid root hash", for each of the four methods with
    rootHash (and for any other method than getRoot and addClaim). *)
Lemma Handler_invalid_root_hash {Tree : Type} (T : TreeOps Tree) (now : Z)
    (r : CensusRequest.t) (isAuth : bool) (s : State Tree) (live : Tree)
    (e : string) :
  MkTrees s !! CensusRequest.CensusID r = Some live →
  CensusRequest.Method r ≠ "getRoot" → CensusRequest.Method r ≠ "addClaim" →
  len (CensusRequest.RootHash r) > 1 →
  Snapshot T live (CensusRequest.RootHash r) = inr e →
  Handler T now r isAuth s = Some (failure now "invalid root hash", s).
Proof.
  intros Hlive H1 H2 Hlen Hsnap. handler_registered Hlive.
  apply String.eqb_neq in H1, H2. rewrite H1, H2. unfold treeView.
  apply Z.gt_lt, Z.ltb_lt in Hlen. rewrite Z.gtb_ltb, Hlen. by rewrite Hsnap.
Qed.

(** X13. Errors of [AddClaim], [GenProof], [Dump] and [CheckProof] are
    copied into the response with [ok=false]. *)
Lemma Handler_tree_error {Tree : Type} (T : TreeOps Tree) (now : Z)
    (r : CensusRequest.t) (s : State Tree) (live t : Tree) (e : string) :
  MkTrees s !! CensusRequest.CensusID r = Some live →
  treeView T live r = inl t →
  (CensusRequest.Method r = "addClaim" →
     (AddClaim T live (bytes (CensusRequest.ClaimData r))).2 = Some e →
     ∃ resp s', Handler T now r true s = Some (resp, s')
       ∧ CensusResponse.Ok resp = false ∧ CensusResponse.Error resp = e)
  ∧ (CensusRequest.Method r = "genProof" →
     (GenProof T t (bytes (CensusRequest.ClaimData r))).2 = Some e →
     ∃ resp s', Handler T now r true s = Some (resp, s')
       ∧ CensusResponse.Ok resp = false ∧ CensusResponse.Error resp = e)
  ∧ (CensusRequest.Method r = "dump" →
     (Dump T t).2 = Some e →
     ∃ resp s', Handler T now r true s = Some (resp, s')
       ∧ CensusResponse.Ok resp = false ∧ CensusResponse.Error resp = e)
  ∧ (CensusRequest.Method r = "checkProof" →
     CensusRequest.ProofData r ≠ "" →
     (CheckProof T t (bytes (CensusRequest.ClaimData r))
                 (CensusRequest.ProofData r)).2 = Some e →
     ∃ resp s', Handler T now r true s = Some (resp, s')
       ∧ CensusResponse.Ok resp = false ∧ CensusResponse.Error resp = e).
Proof.
  intros Hlive Hview. repeat split; intros Hm;
    handler_registered Hlive; rewrite Hm; simpl; rewrite ?Hview.
  - destruct (AddClaim T live _) as [live' err]. simpl. intros ->. by eexists _, _.
  - destruct (GenProof T t _) as [sib err]. simpl. intros ->. by eexists _, _.
  - destruct (Dump T t) as [values err]. simpl. intros ->. by eexists _, _.
  - intros Hp. apply len_ge_1 in Hp. rewrite Hp.
    destruct (CheckProof T t _ _) as [v err]. simpl. intros ->. by eexists _, _.
Qed.

(** C3. A rootHash of one byte is supplied, yet the dispatcher does not ask
    for a snapshot: the request is served from the current tree.  Here
    ["x"] was never a root of the tree of census1 ([Snapshot] fails on it),
    and genProof answers with a proof from the live tree instead of
    "invalid root hash". *)
Theorem Handler_one_byte_rootHash :
  len (CensusRequest.RootHash (request "genProof" "census1" "x" "alice" "")) > 0
  ∧ MkTrees census1_alice !! "census1" = Some ["alice"]
  ∧ Snapshot ListTree.ops ["alice"] "x" = inr "root not found"
  ∧ Handler ListTree.ops 100 (request "genProof" "census1" "x" "alice" "") true
            census1_alice
    = Some (CensusResponse.set_Siblings "proof:alice" (success 100),
            census1_alice).
Proof. repeat split; vm_compute; reflexivity. Qed.

(** C4. The error of [GetIndex] is dropped: getIdx for a claim the tree
    does not hold is answered [ok=true] with an empty error. *)
Theorem Handler_getIdx_drops_error :
  MkTrees census1_alice !! "census1" = Some ["alice"]
  ∧ GetIndex ListTree.ops ["alice"] (bytes "bob") = ("", Some "claim not found")
  ∧ Handler ListTree.ops 100 (request "getIdx" "census1" "" "bob" "") true
            census1_alice
    = Some (success 100, census1_alice).
Proof. repeat split; vm_compute; reflexivity. Qed.

(** For every tree: whatever [GetIndex] returns as its error, the response
    to getIdx is [ok=true] with the returned index. *)
Lemma Handler_getIdx {Tree : Type} (T : TreeOps Tree) (now : Z)
    (r : CensusRequest.t) (isAuth : bool) (s : State Tree) (live t : Tree) :
  MkTrees s !! CensusRequest.CensusID r = Some live →
  treeView T live r = inl t →
  CensusRequest.Method r = "getIdx" →
  Handler T now r isAuth s
  = Some (CensusResponse.set_Idx
            (GetIndex T t (bytes (CensusRequest.ClaimData r))).1 (success now), s).
Proof.
  intros Hlive Hview Hm. handler_registered Hlive. rewrite Hm, Hview. simpl.
  by destruct (GetIndex T t _).
Qed.

(** *** The registry *)

Lemma map_size_0 {A : Type} (m : gmap string A) :
  (if bool_decide (size m = 0%nat) then ∅ else m) = m.
Proof.
  case_bool_decide as H; [|done]. symmetry. by apply map_size_empty_iff.
Qed.

(** C5, as stated, fails: registering ["census1"] again does not fail (the
    function has no error result) and replaces both the tree and the key of
    the first registration. *)
Lemma AddNamespace_overwrites :
  MkTrees census1_alice !! "census1" = Some ["alice"]
  ∧ Signatures census1_alice !! "census1" = Some "pubkey1"
  ∧ MkTrees (AddNamespace ListTree.ops "census1" "pubkey2" census1_alice)
      !! "census1" = Some []
  ∧ Signatures (AddNamespace ListTree.ops "census1" "pubkey2" census1_alice)
      !! "census1" = Some "pubkey2".
Proof. repeat split; vm_compute; reflexivity. Qed.

(** C5, amended. Registering an id that is already present does not fail:
    the id is bound to a freshly initialised tree and to the new key, the
    previous tree and key are dropped; the bindings of every other id are
    unchanged. *)
Theorem AddNamespace_rebinds {Tree : Type} (T : TreeOps Tree)
    (name pubKey : string) (s : State Tree) :
  name ∈ dom (MkTrees s) →
  MkTrees (AddNamespace T name pubKey s) !! name = Some (Init T name)
  ∧ Signatures (AddNamespace T name pubKey s) !! name = Some pubKey
  ∧ dom (MkTrees (AddNamespace T name pubKey s)) = dom (MkTrees s)
  ∧ ∀ id, id ≠ name →
      MkTrees (AddNamespace T name pubKey s) !! id = MkTrees s !! id
      ∧ Signatures (AddNamespace T name pubKey s) !! id = Signatures s !! id.
Proof.
  intros Hin. unfold AddNamespace. simpl. rewrite !map_size_0.
  split; [by rewrite lookup_insert_eq|]. split; [by rewrite lookup_insert_eq|].
  split.
  - apply set_eq. intros id.
    rewrite dom_insert_L, elem_of_union, elem_of_singleton.
    split; [by intros [->|]|tauto].
  - intros id Hid. by rewrite !lookup_insert_ne.
Qed.

Lemma AddNamespace_rebinds_witness :
  MkTrees (AddNamespace ListTree.ops "census1" "pubkey2" census1_alice)
    !! "census1" = Some (Init ListTree.ops "census1")
  ∧ Signatures (AddNamespace ListTree.ops "census1" "pubkey2" census1_alice)
      !! "census1" = Some "pubkey2"
  ∧ dom (MkTrees (AddNamespace ListTree.ops "census1" "pubkey2" census1_alice))
    = dom (MkTrees census1_alice)
  ∧ ∀ id, id ≠ "census1" →
      MkTrees (AddNamespace ListTree.ops "census1" "pubkey2" census1_alice) !! id
      = MkTrees census1_alice !! id
      ∧ Signatures (AddNamespace ListTree.ops "census1" "pubkey2" census1_alice)
          !! id = Signatures census1_alice !! id.
Proof.
  apply (AddNamespace_rebinds ListTree.ops "census1" "pubkey2" census1_alice).
  apply elem_of_dom. vm_compute. eauto.
Defined.

(** ** The HTTP path *)

(** [Handler] reads the method, the census id, the root hash, the claim
    and the proof of a request, and nothing else. *)
Lemma Handler_fields {Tree : Type} (T : TreeOps Tree) (now : Z)
    (r1 r2 : CensusRequest.t) (isAuth : bool) (s : State Tree) :
  CensusRequest.Method r1 = CensusRequest.Method r2 →
  CensusRequest.CensusID r1 = CensusRequest.CensusID r2 →
  CensusRequest.RootHash r1 = CensusRequest.RootHash r2 →
  CensusRequest.ClaimData r1 = CensusRequest.ClaimData r2 →
  CensusRequest.ProofData r1 = CensusRequest.ProofData r2 →
  Handler T now r1 isAuth s = Handler T now r2 isAuth s.
Proof.
  destruct r1, r2. simpl. intros -> -> -> -> ->. reflexivity.
Qed.

(** A request with a body that decodes to a message with a method goes to
    the dispatcher, with the authorization flag [true]. *)
Lemma HTTPhandler_dispatch {Tree : Type} (T : TreeOps Tree) (json : JsonOps)
    (signer : SignOps) (now : Z) (req : HttpRequest) (body : string)
    (rm : CensusRequestMessage.t) (s : State Tree) :
  Body req = Some body →
  Decode json body = (rm, None) →
  CensusRequest.Method (CensusRequestMessage.Request rm) ≠ "" →
  HTTPhandler T json now req signer s
  = '(resp, s') ← Handler T now (CensusRequestMessage.Request rm) true s;
    Some (httpReply json
            (responseMessage signer (CensusRequestMessage.ID rm) resp), s').
Proof.
  intros Hbody Hdec Hm. unfold HTTPhandler, checkRequest.
  rewrite Hbody. simpl. rewrite Hdec. apply len_ge_1 in Hm. rewrite Hm.
  destruct (Handler T now _ true s) as [[resp s']|]; [|done]. simpl.
  unfold responseMessage. by destruct (SignJSON signer _).
Qed.

(** C2. On the HTTP path a decoded request with a method reaches the
    dispatcher with the authorization flag [true], whatever its timestamp
    and signature, and the auth gate is not invoked: the history of
    [checkAuth] calls is unchanged.  Two requests that differ only in
    timestamp and signature get the same outcome from the dispatcher and
    the same HTTP reply. *)
Theorem HTTPhandler_bypasses_auth {Tree : Type} (T : TreeOps Tree)
    (json : JsonOps) (signer : SignOps) (now : Z) (req : HttpRequest)
    (body : string) (rm : CensusRequestMessage.t) (s : State Tree) :
  Body req = Some body →
  Decode json body = (rm, None) →
  CensusRequest.Method (CensusRequestMessage.Request rm) ≠ "" →
  (∃ resp s',
      Handler T now (CensusRequestMessage.Request rm) true s = Some (resp, s')
      ∧ HTTPhandler T json now req signer s
        = Some (httpReply json
                  (responseMessage signer (CensusRequestMessage.ID rm) resp), s')
      ∧ authCalls s' = authCalls s)
  ∧ (∀ req2 body2 rm2,
       Body req2 = Some body2 →
       Decode json body2 = (rm2, None) →
       same_but_auth rm rm2 →
       Handler T now (CensusRequestMessage.Request rm2) true s
       = Handler T now (CensusRequestMessage.Request rm) true s
       ∧ HTTPhandler T json now req2 signer s
         = HTTPhandler T json now req signer s).
Proof.
  intros Hbody Hdec Hm. split.
  - destruct (Handler_returns T now (CensusRequestMessage.Request rm) true s)
      as [[resp s'] H].
    exists resp, s'. split; [done|]. split.
    + rewrite (HTTPhandler_dispatch _ _ _ _ _ _ _ _ Hbody Hdec Hm), H. done.
    + destruct (Handler_state T _ _ _ _ _ _ H) as [->|(_ & _ & ? & _ & ->)]; done.
  - intros req2 body2 rm2 Hbody2 Hdec2 (Hid & H1 & H2 & H3 & H4 & H5).
    assert (Handler T now (CensusRequestMessage.Request rm2) true s
            = Handler T now (CensusRequestMessage.Request rm) true s) as HH
      by (by apply Handler_fields).
    split; [done|].
    rewrite (HTTPhandler_dispatch _ _ _ _ _ _ _ _ Hbody Hdec Hm).
    rewrite (HTTPhandler_dispatch _ _ _ _ _ _ _ _ Hbody2 Hdec2)
      by (by rewrite <- H1).
    by rewrite HH, Hid.
Qed.

Lemma HTTPhandler_bypasses_auth_witness :
  (∃ resp s',
      Handler ListTree.ops 100 (CensusRequest.mk "addClaim" "census1" "" "bob" "" 0)
              true census1_alice = Some (resp, s')
      ∧ HTTPhandler ListTree.ops ListTree.codec 100 {| Body := Some "add-bob" |}
                    ListTree.signer census1_alice
        = Some (httpReply ListTree.codec
                  (responseMessage ListTree.signer "req1" resp), s')
      ∧ authCalls s' = authCalls census1_alice)
  ∧ HTTPhandler ListTree.ops ListTree.codec 100
                {| Body := Some "add-bob-forged" |} ListTree.signer census1_alice
    = HTTPhandler ListTree.ops ListTree.codec 100 {| Body := Some "add-bob" |}
                  ListTree.signer census1_alice.
Proof.
  destruct (HTTPhandler_bypasses_auth ListTree.ops ListTree.codec ListTree.signer
              100 {| Body := Some "add-bob" |} "add-bob"
              (CensusRequestMessage.mk "req1"
                 (CensusRequest.mk "addClaim" "census1" "" "bob" "" 0) "")
              census1_alice) as [H1 H2].
  - reflexivity.
  - reflexivity.
  - simpl. discriminate.
  - split; [exact H1|].
    refine (proj2 (H2 {| Body := Some "add-bob-forged" |} "add-bob-forged"
                      (CensusRequestMessage.mk "req1"
                         (CensusRequest.mk "addClaim" "census1" "" "bob" "" 999)
                         "forged") _ _ _)).
    + reflexivity.
    + reflexivity.
    + repeat split.
Defined.

(** ** The auth gate *)

(** [checkAuth] with a non-empty key: the window test is made on [int32]
    values, with strict comparisons, and the verdict is the boolean of
    [Verify]. *)
Lemma checkAuth_int32 {Tree : Type} (cs : SignOps) (now timestamp : Z)
    (signed pubKey message : string) (s : State Tree) :
  pubKey ≠ "" →
  (checkAuth cs now timestamp signed pubKey message s).1 = true
  ↔ (timestamp < int32 (int32 now + authTimeWindow)
     ∧ timestamp > int32 (int32 now - authTimeWindow))
    ∧ (Verify cs message signed pubKey).1 = true.
Proof.
  intros Hk. apply len_ge_1 in Hk. unfold checkAuth. rewrite Hk.
  destruct (timestamp <? _) eqn:H1; destruct (timestamp >? _) eqn:H2; simpl.
  - destruct (Verify cs message signed pubKey) as [v err]. simpl.
    apply Z.ltb_lt in H1. rewrite Z.gtb_ltb in H2. apply Z.ltb_lt in H2.
    split; [intros ->; split; [lia|done]|tauto].
  - rewrite Z.gtb_ltb in H2. apply Z.ltb_ge in H2.
    split; [done|]. intros [[_ ?] _]. lia.
  - apply Z.ltb_ge in H1. split; [done|]. intros [[? _] _]. lia.
  - apply Z.ltb_ge in H1. split; [done|]. intros [[? _] _]. lia.
Qed.

(** [checkAuth] is recorded in the history of calls, and changes nothing
    else. *)
Lemma checkAuth_state {Tree : Type} (cs : SignOps) (now timestamp : Z)
    (signed pubKey message : string) (s : State Tree) :
  (checkAuth cs now timestamp signed pubKey message s).2
  = mkState (MkTrees s) (Signatures s)
            ((timestamp, signed, pubKey, message) :: authCalls s).
Proof.
  unfold checkAuth. repeat case_match; done.
Qed.

(** C1, as stated, fails, on both of its conditions.  A timestamp exactly
    [authTimeWindow] seconds ahead of the clock is in the closed window and
    carries a valid signature, and is not authorized.  And a verification
    that returns an error next to a valid verdict is authorized: the error
    is only logged. *)
Lemma checkAuth_not_as_claimed :
  "pubkey1" ≠ ""
  ∧ ¬ authorizes_in_closed_window ListTree.signer 1000 1010 "valid" "pubkey1"
        "message"
        (checkAuth ListTree.signer 1000 1010 "valid" "pubkey1" "message"
                   census1_alice).1
  ∧ (Verify warningSigner "message" "valid" "pubkey1").2
    = Some "signature is not in canonical form"
  ∧ (checkAuth warningSigner 1000 1000 "valid" "pubkey1" "message"
               census1_alice).1 = true
  ∧ ¬ authorizes_in_closed_window warningSigner 1000 1000 "valid" "pubkey1"
        "message"
        (checkAuth warningSigner 1000 1000 "valid" "pubkey1" "message"
                   census1_alice).1.
Proof.
  split; [discriminate|]. unfold authorizes_in_closed_window. split.
  { intros [_ H]. discriminate H.
    split; [unfold authTimeWindow; lia|reflexivity]. }
  split; [reflexivity|]. split; [reflexivity|].
  intros [H _]. destruct (H eq_refl) as [_ Hv]. discriminate Hv.
Qed.

(** C1, amended. With an empty key [checkAuth] authorizes unconditionally.
    With a non-empty key (and the clock at least [authTimeWindow] seconds
    inside the [int32] range) it authorizes only if the timestamp lies
    strictly inside the window, [now - 10 < timestamp < now + 10], and the
    verdict of the verification is valid; it does authorize when, in
    addition, the verification returns no error; and a verification that
    returns an error next to an invalid verdict yields not-authorized.
    Nothing is stated on an error returned next to a valid verdict. *)
Theorem checkAuth_spec {Tree : Type} (cs : SignOps) (now timestamp : Z)
    (signed pubKey message : string) (s : State Tree) :
  (pubKey = "" →
     (checkAuth cs now timestamp signed pubKey message s).1 = true)
  ∧ (pubKey ≠ "" →
     - 2 ^ 31 + authTimeWindow <= now < 2 ^ 31 - authTimeWindow →
     ((checkAuth cs now timestamp signed pubKey message s).1 = true →
        now - authTimeWindow < timestamp < now + authTimeWindow
        ∧ (Verify cs message signed pubKey).1 = true)
     ∧ (now - authTimeWindow < timestamp < now + authTimeWindow →
        Verify cs message signed pubKey = (true, None) →
        (checkAuth cs now timestamp signed pubKey message s).1 = true)
     ∧ (∀ e, Verify cs message signed pubKey = (false, Some e) →
        (checkAuth cs now timestamp signed pubKey message s).1 = false)).
Proof.
  split.
  - intros ->. reflexivity.
  - unfold authTimeWindow. intros Hk Hnow.
    pose proof (checkAuth_int32 cs now timestamp signed _ message s Hk)
      as Hspec.
    unfold authTimeWindow in Hspec.
    rewrite (int32_id now) in Hspec by lia.
    rewrite !int32_id in Hspec by lia.
    split; [|split].
    + intros H. apply Hspec in H as [? ?]. split; [lia|done].
    + intros Hw Hv. apply Hspec. rewrite Hv. split; [lia|done].
    + intros e Hv. apply not_true_is_false. rewrite Hspec, Hv. by intros [_ ?].
Qed.

Lemma checkAuth_spec_witness :
  (checkAuth ListTree.signer 1000 1009 "valid" "" "message" census1_alice).1
  = true
  ∧ (checkAuth ListTree.signer 1000 1009 "valid" "pubkey1" "message"
               census1_alice).1 = true
  ∧ (checkAuth ListTree.signer 1000 1009 "" "pubkey1" "message"
               census1_alice).1 = false.
Proof.
  split; [|split].
  - apply (proj1 (checkAuth_spec ListTree.signer 1000 1009 "valid" ""
                    "message" census1_alice)).
    reflexivity.
  - refine (proj1 (proj2 (proj2 (checkAuth_spec ListTree.signer 1000 1009
                                   "valid" "pubkey1" "message" census1_alice)
                            _ _)) _ _).
    + discriminate.
    + unfold authTimeWindow. lia.
    + unfold authTimeWindow. lia.
    + reflexivity.
  - refine (proj2 (proj2 (proj2 (checkAuth_spec ListTree.signer 1000 1009
                                   "" "pubkey1" "message" census1_alice)
                            _ _)) "empty signature" _).
    + discriminate.
    + unfold authTimeWindow. lia.
    + reflexivity.
Defined.

(** ** Further properties of the package *)

(** *** Responses depend on the target census only *)

(** The response to a request is determined by the tree registered under
    its census id. *)
Lemma Handler_response_local {Tree : Type} (T : TreeOps Tree) (now : Z)
    (r : CensusRequest.t) (isAuth : bool) (s1 s2 : State Tree) :
  MkTrees s1 !! CensusRequest.CensusID r = MkTrees s2 !! CensusRequest.CensusID r →
  fst <$> Handler T now r isAuth s1 = fst <$> Handler T now r isAuth s2.
Proof.
  intros Heq.
  destruct (MkTrees s1 !! CensusRequest.CensusID r) as [live|] eqn:H1;
    symmetry in Heq.
  - unfold Handler.
    rewrite (censusFound_Some _ _ _ H1), (censusFound_Some _ _ _ Heq).
    cbn [negb]. rewrite H1, Heq. cbn [mbind option_bind].
    handler_branches; reflexivity.
  - by rewrite (Handler_unregistered _ _ _ _ _ H1),
               (Handler_unregistered _ _ _ _ _ Heq).
Qed.

(** A request leaves the trees of the other censuses as they are. *)
Lemma Handler_other_trees {Tree : Type} (T : TreeOps Tree) (now : Z)
    (r : CensusRequest.t) (isAuth : bool) (s s' : State Tree)
    (resp : CensusResponse.t) (id : string) :
  Handler T now r isAuth s = Some (resp, s') →
  id ≠ CensusRequest.CensusID r →
  MkTrees s' !! id = MkTrees s !! id.
Proof.
  intros H Hid.
  destruct (Handler_state T _ _ _ _ _ _ H) as [->|(_ & _ & live & _ & ->)];
    [done|]. simpl. by rewrite lookup_insert_ne.
Qed.

(** X1. Isolation of censuses: whatever a request on one census does, every
    request on another census gets the response it would have got
    before. *)
Theorem Handler_isolation {Tree : Type} (T : TreeOps Tree) (now1 now2 : Z)
    (r1 r2 : CensusRequest.t) (isAuth1 isAuth2 : bool) (s s1 : State Tree)
    (resp1 : CensusResponse.t) :
  CensusRequest.CensusID r1 ≠ CensusRequest.CensusID r2 →
  Handler T now1 r1 isAuth1 s = Some (resp1, s1) →
  fst <$> Handler T now2 r2 isAuth2 s1 = fst <$> Handler T now2 r2 isAuth2 s.
Proof.
  intros Hne H1. apply Handler_response_local.
  apply (Handler_other_trees T _ _ _ _ _ _ _ H1). congruence.
Qed.

(** *** addClaim, then getRoot *)

(** On a registered census, getRoot answers with the root of the current
    tree; the answer does not depend on the authorization flag, the
    rootHash or any other field of the request. *)
Lemma Handler_getRoot {Tree : Type} (T : TreeOps Tree) (now : Z)
    (r : CensusRequest.t) (isAuth : bool) (s : State Tree) (live : Tree) :
  MkTrees s !! CensusRequest.CensusID r = Some live →
  CensusRequest.Method r = "getRoot" →
  Handler T now r isAuth s
  = Some (CensusResponse.set_Root (GetRoot T live) (success now), s).
Proof. intros Hlive Hm. handler_registered Hlive. by rewrite Hm. Qed.

(** X2. After an authorized addClaim on a registered census, whether the
    tree accepted the claim or not, getRoot on that census answers with the
    root of the tree [AddClaim] left behind. *)
Theorem Handler_addClaim_getRoot {Tree : Type} (T : TreeOps Tree)
    (now1 now2 : Z) (r1 r2 : CensusRequest.t) (isAuth2 : bool)
    (s s1 : State Tree) (live : Tree) (resp1 : CensusResponse.t) :
  MkTrees s !! CensusRequest.CensusID r1 = Some live →
  CensusRequest.Method r1 = "addClaim" →
  CensusRequest.Method r2 = "getRoot" →
  CensusRequest.CensusID r2 = CensusRequest.CensusID r1 →
  Handler T now1 r1 true s = Some (resp1, s1) →
  Handler T now2 r2 isAuth2 s1
  = Some (CensusResponse.set_Root
            (GetRoot T (AddClaim T live (bytes (CensusRequest.ClaimData r1))).1)
            (success now2), s1).
Proof.
  intros Hlive Hm1 Hm2 Hid H1.
  apply Handler_getRoot; [|done]. rewrite Hid.
  revert H1. handler_registered Hlive. rewrite Hm1. simpl.
  destruct (AddClaim T live _) as [live' [e|]]; intros [= <- <-]; simpl;
    by rewrite lookup_insert_eq.
Qed.

Lemma Handler_addClaim_getRoot_witness :
  Handler ListTree.ops 200 (request "getRoot" "census1" "" "" "") false
          census1_alice
  = Some (CensusResponse.set_Root "root/alice" (success 200), census1_alice).
Proof.
  apply (Handler_addClaim_getRoot ListTree.ops 100 200
           (request "addClaim" "census1" "" "alice" "")
           (request "getRoot" "census1" "" "" "") false census1_empty
           census1_alice [] (success 100)).
  - vm_compute. reflexivity.
  - reflexivity.
  - reflexivity.
  - reflexivity.
  - vm_compute. reflexivity.
Defined.

Lemma Handler_isolation_witness :
  fst <$> Handler ListTree.ops 200 (request "dump" "census2" "" "" "") true
            two_censuses_alice
  = fst <$> Handler ListTree.ops 200 (request "dump" "census2" "" "" "") true
              two_censuses.
Proof.
  apply (Handler_isolation ListTree.ops 100 200
           (request "addClaim" "census1" "" "alice" "")
           (request "dump" "census2" "" "" "") true true two_censuses
           two_censuses_alice (success 100)).
  - simpl. discriminate.
  - vm_compute. reflexivity.
Defined.

(** *** Methods and the rootHash *)

(** X3. getRoot and addClaim never take a snapshot: their outcome (response
    and state) is the same whatever the rootHash, the proofData and the
    timestamp of the request, also when the rootHash is one the tree cannot
    snapshot. *)
Theorem Handler_live_tree_methods {Tree : Type} (T : TreeOps Tree) (now : Z)
    (r r' : CensusRequest.t) (isAuth : bool) (s : State Tree) :
  CensusRequest.Method r = "getRoot" ∨ CensusRequest.Method r = "addClaim" →
  CensusRequest.Method r' = CensusRequest.Method r →
  CensusRequest.CensusID r' = CensusRequest.CensusID r →
  CensusRequest.ClaimData r' = CensusRequest.ClaimData r →
  Handler T now r' isAuth s = Handler T now r isAuth s.
Proof.
  destruct r as [m c h d p ts], r' as [m' c' h' d' p' ts']. simpl.
  intros Hm -> -> ->. unfold Handler. simpl.
  destruct (existsb _ _); [|done]. simpl.
  destruct (MkTrees s !! c) as [live|]; [|done]. simpl.
  by destruct Hm as [-> | ->].
Qed.

Lemma Handler_live_tree_methods_witness :
  Handler ListTree.ops 100 (request "getRoot" "census1" "zz" "" "p") false
          census1_alice
  = Handler ListTree.ops 100 (request "getRoot" "census1" "" "" "") false
            census1_alice.
Proof.
  apply (Handler_live_tree_methods ListTree.ops 100
           (request "getRoot" "census1" "" "" "")
           (request "getRoot" "census1" "zz" "" "p") false census1_alice).
  - left. reflexivity.
  - reflexivity.
  - reflexivity.
  - reflexivity.
Defined.

(** X4. A method that is none of the six known ones is not rejected: on a
    registered census the response is [ok=true] without any result when the
    rootHash has at most one byte or the tree can snapshot it; a rootHash
    longer than one byte whose snapshot fails is answered "invalid root
    hash".  The state is unchanged. *)
Theorem Handler_unknown_method {Tree : Type} (T : TreeOps Tree) (now : Z)
    (r : CensusRequest.t) (isAuth : bool) (s : State Tree) (live : Tree) :
  MkTrees s !! CensusRequest.CensusID r = Some live →
  CensusRequest.Method r ∉
    ["getRoot"; "addClaim"; "genProof"; "getIdx"; "dump"; "checkProof"] →
  (len (CensusRequest.RootHash r) <= 1
   ∨ (∃ t, Snapshot T live (CensusRequest.RootHash r) = inl t) →
   Handler T now r isAuth s = Some (success now, s))
  ∧ (len (CensusRequest.RootHash r) > 1 →
     (∃ e, Snapshot T live (CensusRequest.RootHash r) = inr e) →
     Handler T now r isAuth s = Some (failure now "invalid root hash", s)).
Proof.
  intros Hlive Hm. handler_registered Hlive.
  rewrite !not_elem_of_cons in Hm.
  destruct Hm as (H1 & H2 & H3 & H4 & H5 & H6 & _).
  apply String.eqb_neq in H1, H2, H3, H4, H5, H6.
  rewrite H1, H2. unfold treeView. rewrite Z.gtb_ltb.
  destruct (1 <? len (CensusRequest.RootHash r)) eqn:Hlen.
  - apply Z.ltb_lt in Hlen. split.
    + intros [?|[t Ht]]; [lia|]. by rewrite Ht, H3, H4, H5, H6.
    + intros _ [e He]. by rewrite He.
  - apply Z.ltb_ge in Hlen. split; [|lia].
    intros _. by rewrite H3, H4, H5, H6.
Qed.

Lemma Handler_unknown_method_witness :
  Handler ListTree.ops 100 (request "delClaim" "census1" "x" "alice" "") false
          census1_alice
  = Some (success 100, census1_alice)
  ∧ Handler ListTree.ops 100 (request "delClaim" "census1" "zz" "alice" "")
            false census1_alice
    = Some (failure 100 "invalid root hash", census1_alice).
Proof.
  assert (∀ h, CensusRequest.Method (request "delClaim" "census1" h "alice" "")
               ∉ ["getRoot"; "addClaim"; "genProof"; "getIdx"; "dump";
                  "checkProof"]) as Hm.
  { intros h. simpl. rewrite !not_elem_of_cons. repeat split; try discriminate.
    apply not_elem_of_nil. }
  split.
  - refine (proj1 (Handler_unknown_method ListTree.ops 100
                     (request "delClaim" "census1" "x" "alice" "") false
                     census1_alice ["alice"] _ (Hm "x")) _).
    + vm_compute. reflexivity.
    + left. vm_compute. discriminate.
  - refine (proj2 (Handler_unknown_method ListTree.ops 100
                     (request "delClaim" "census1" "zz" "alice" "") false
                     census1_alice ["alice"] _ (Hm "zz")) _ _).
    + vm_compute. reflexivity.
    + vm_compute. reflexivity.
    + exists "root not found". vm_compute. reflexivity.
Defined.

Lemma Handler_invalid_root_hash_witness :
  Handler ListTree.ops 100 (request "checkProof" "census1" "zz" "alice" "")
          false census1_alice
  = Some (failure 100 "invalid root hash", census1_alice).
Proof.
  apply (Handler_invalid_root_hash ListTree.ops 100
           (request "checkProof" "census1" "zz" "alice" "") false census1_alice
           ["alice"] "root not found").
  - vm_compute. reflexivity.
  - simpl. discriminate.
  - simpl. discriminate.
  - vm_compute. reflexivity.
  - vm_compute. reflexivity.
Defined.

Lemma Handler_tree_error_witness :
  ∃ resp s',
    Handler ListTree.ops 100 (request "addClaim" "census1" "" "alice" "") true
            census1_alice = Some (resp, s')
    ∧ CensusResponse.Ok resp = false
    ∧ CensusResponse.Error resp = "claim already exists".
Proof.
  refine (proj1 (Handler_tree_error ListTree.ops 100
                   (request "addClaim" "census1" "" "alice" "") census1_alice
                   ["alice"] ["alice"] "claim already exists" _ _) _ _).
  - vm_compute. reflexivity.
  - reflexivity.
  - reflexivity.
  - vm_compute. reflexivity.
Defined.

(** *** The auth window at the ends of the [int32] range *)

Lemma int32_range (z : Z) : - 2 ^ 31 <= int32 z < 2 ^ 31.
Proof.
  unfold int32. pose proof (Z.mod_pos_bound (z + 2 ^ 31) (2 ^ 32)). lia.
Qed.

Lemma int32_above (z : Z) : 2 ^ 31 <= z < 2 ^ 31 + 2 ^ 32 → int32 z = z - 2 ^ 32.
Proof.
  intros Hz. unfold int32.
  replace (z + 2 ^ 31) with ((z + 2 ^ 31 - 2 ^ 32) + 1 * 2 ^ 32) by lia.
  rewrite Z_mod_plus_full, Z.mod_small; lia.
Qed.

Lemma int32_below (z : Z) : - 2 ^ 31 - 2 ^ 32 <= z < - 2 ^ 31 → int32 z = z + 2 ^ 32.
Proof.
  intros Hz. unfold int32.
  replace (z + 2 ^ 31) with ((z + 2 ^ 31 + 2 ^ 32) + (- 1) * 2 ^ 32) by lia.
  rewrite Z_mod_plus_full, Z.mod_small; lia.
Qed.

(** X5. When the clock, as an [int32], is within [authTimeWindow] seconds
    of either end of the [int32] range, one bound of the window wraps
    around and no timestamp satisfies both comparisons: with a non-empty
    key [checkAuth] refuses every request, whatever the signature. *)
Theorem checkAuth_window_wraps {Tree : Type} (cs : SignOps) (now timestamp : Z)
    (signed pubKey message : string) (s : State Tree) :
  pubKey ≠ "" →
  2 ^ 31 - authTimeWindow <= int32 now ∨ int32 now < - 2 ^ 31 + authTimeWindow →
  (checkAuth cs now timestamp signed pubKey message s).1 = false.
Proof.
  intros Hk Hnow. apply not_true_is_false.
  rewrite (checkAuth_int32 cs now timestamp signed pubKey message s Hk).
  pose proof (int32_range now) as Hr. unfold authTimeWindow in *.
  intros [[Hlt Hgt] _]. destruct Hnow as [Hhi|Hlo].
  - rewrite int32_above in Hlt by lia. rewrite int32_id in Hgt by lia. lia.
  - rewrite int32_id in Hlt by lia. rewrite int32_below in Hgt by lia. lia.
Qed.

Lemma checkAuth_window_wraps_witness :
  (checkAuth ListTree.signer 2147483643 2147483643 "valid" "pubkey1" "message"
             census1_alice).1 = false.
Proof.
  apply (checkAuth_window_wraps ListTree.signer 2147483643 2147483643 "valid"
           "pubkey1" "message" census1_alice).
  - discriminate.
  - left. vm_compute. discriminate.
Defined.

(** *** Replies of the HTTP handler *)

(** [HTTPhandler] always replies, and the state it leaves is the one it
    found or the one [Handler], called with the flag [true], left. *)
Lemma HTTPhandler_state {Tree : Type} (T : TreeOps Tree) (json : JsonOps)
    (signer : SignOps) (now : Z) (req : HttpRequest) (s : State Tree) :
  ∃ w s', HTTPhandler T json now req signer s = Some (w, s')
    ∧ (s' = s ∨ ∃ r resp, Handler T now r true s = Some (resp, s')).
Proof.
  unfold HTTPhandler, checkRequest.
  destruct (Body req) as [body|]; simpl; [|by eexists _, _; eauto].
  destruct (Decode json body) as [rm [e|]]; [by eexists _, _; eauto|].
  destruct (len _ <? 1); [by eexists _, _; eauto|].
  destruct (Handler_returns T now (CensusRequestMessage.Request rm) true s)
    as [[resp s'] H].
  rewrite H. simpl. destruct (SignJSON signer _). eexists _, _. eauto.
Qed.

(** X6. [HTTPhandler] answers a malformed request (no body, a body that does
    not decode, or no method) with status 400 and leaves the state
    untouched, and these are the only requests answered with status 400:
    every other request is dispatched, and its reply is the encoded response
    or status 500. *)
Theorem HTTPhandler_bad_request {Tree : Type} (T : TreeOps Tree)
    (json : JsonOps) (signer : SignOps) (now : Z) (req : HttpRequest)
    (s : State Tree) :
  (malformed json req →
     ∃ text, HTTPhandler T json now req signer s = Some (HttpError text 400, s))
  ∧ (∀ text s', HTTPhandler T json now req signer s
                = Some (HttpError text 400, s') →
                malformed json req).
Proof.
  unfold malformed, HTTPhandler, checkRequest.
  destruct (Body req) as [body|]; simpl; [|split; eauto].
  destruct (Decode json body) as [rm [e|]]; simpl.
  { split; [eauto|]. intros _ _ _. by left. }
  destruct (len _ <? 1) eqn:Hm.
  { apply len_lt_1 in Hm. split; [eauto|]. intros _ _ _. by right. }
  apply len_ge_1 in Hm. split; [by intros [?|?]|].
  intros text s'.
  destruct (Handler T now _ true s) as [[resp s1]|]; [|done]. simpl.
  destruct (SignJSON signer _) as [sig ?]. unfold httpReply.
  by destruct (Encode json _) as [out [encErr|]].
Qed.

(** *** Invariant of the registry *)

Lemma AddNamespace_inv {Tree : Type} (T : TreeOps Tree) (name pubKey : string)
    (s : State Tree) :
  registry_inv s → registry_inv (AddNamespace T name pubKey s).
Proof.
  intros [Hdom Hauth]. unfold registry_inv, AddNamespace. simpl.
  rewrite !map_size_0, !dom_insert_L, Hdom. done.
Qed.

Lemma Handler_inv {Tree : Type} (T : TreeOps Tree) (now : Z)
    (r : CensusRequest.t) (isAuth : bool) (s s' : State Tree)
    (resp : CensusResponse.t) :
  Handler T now r isAuth s = Some (resp, s') →
  registry_inv s → registry_inv s'.
Proof.
  intros H [Hdom Hauth].
  destruct (Handler_state T _ _ _ _ _ _ H) as [->|(_ & _ & live & Hl & ->)];
    [done|].
  split; [|done]. simpl. rewrite <- Hdom. apply set_eq. intros id.
  rewrite dom_insert_L, elem_of_union, elem_of_singleton.
  split; [|tauto]. intros [->|]; [|done]. apply elem_of_dom. eauto.
Qed.

Lemma call_inv {Tree : Type} (T : TreeOps Tree) (json : JsonOps) (c : Call)
    (s : State Tree) :
  registry_inv s → ∃ s', call T json c s = Some s' ∧ registry_inv s'.
Proof.
  intros Hinv. destruct c as [name pubKey|now r isAuth|now req signer]; simpl.
  - eexists. split; [done|]. by apply AddNamespace_inv.
  - destruct (Handler_returns T now r isAuth s) as [[resp s'] H].
    rewrite H. simpl. eexists. split; [done|]. by eapply Handler_inv.
  - destruct (HTTPhandler_state T json signer now req s)
      as (w & s' & -> & [->|(r & resp & H)]); simpl.
    + eauto.
    + eexists. split; [done|]. by eapply Handler_inv.
Qed.

(** X7. Whatever sequence of calls to [AddNamespace], [Handler] and
    [HTTPhandler] is made on a freshly loaded package, no call dereferences
    nil, [MkTrees] and [Signatures] keep the same set of census ids, and
    [checkAuth] is never invoked. *)
Theorem calls_invariant {Tree : Type} (T : TreeOps Tree) (json : JsonOps)
    (cs : list Call) :
  ∃ s, calls T json cs initial = Some s
       ∧ dom (MkTrees s) = dom (Signatures s)
       ∧ authCalls s = [].
Proof.
  assert (∀ s0 : State Tree, registry_inv s0 →
            ∃ s, calls T json cs s0 = Some s ∧ registry_inv s) as Hgen.
  { induction cs as [|c cs IH]; intros s0 Hinv; simpl.
    - eauto.
    - destruct (call_inv T json c s0 Hinv) as (s1 & -> & Hinv1). simpl.
      by apply IH. }
  destruct (Hgen initial) as (s & Hs & Hdom & Hauth).
  - split; [|done]. simpl. by rewrite !dom_empty_L.
  - eauto.
Qed.

(** ** The indexer handlers *)

Lemma uint32_id (z : Z) : 0 <= z < 2 ^ 32 → rpcapi.uint32 z = z.
Proof. intros Hz. unfold rpcapi.uint32. by rewrite Z.mod_small. Qed.

Lemma int64_id (z : Z) : - 2 ^ 63 <= z < 2 ^ 63 → rpcapi.int64 z = z.
Proof. intros Hz. unfold rpcapi.int64. rewrite Z.mod_small; lia. Qed.

Lemma seqZ_to_nat (m n n' : Z) : Z.to_nat n = Z.to_nat n' → seqZ m n = seqZ m n'.
Proof. intros H. unfold seqZ. by rewrite H. Qed.

(** The loop of [getBlockList], started at a height not above the next
    block: it appends the blocks from that height up to the chain height,
    at most [n] of them. *)
Lemma getBlockList_loop_spec (r : rpcapi.RPCAPI) (request : rpcapi.APIrequest.t)
    (n : nat) (i : Z) (acc : list (option rpcapi.BlockMetadata.t)) :
  0 <= rpcapi.APIrequest.From request →
  0 <= rpcapi.Height (rpcapi.vocapp r) < 2 ^ 32 - 1 →
  0 <= i →
  rpcapi.APIrequest.From request + i <= rpcapi.Height (rpcapi.vocapp r) + 1 →
  rpcapi.getBlockList_loop r request n i acc
  = (acc ++
     ((fun h => rpcapi.blockMetadataFromBlockModel
                  (rpcapi.GetBlockByHeight (rpcapi.scrutinizerApp r) h) true true)
      <$> seqZ (rpcapi.APIrequest.From request + i)
               (Z.min (Z.of_nat n)
                  (rpcapi.Height (rpcapi.vocapp r)
                   - rpcapi.APIrequest.From request - i + 1))))%list.
Proof.
  intros Hfrom Hh. revert i acc.
  induction n as [|n IH]; intros i acc Hi Hinv.
  - simpl. rewrite (seqZ_to_nat _ _ 0) by lia. simpl. by rewrite app_nil_r.
  - cbn [rpcapi.getBlockList_loop].
    rewrite (uint32_id (rpcapi.APIrequest.From request)) by lia.
    rewrite (uint32_id i) by lia. rewrite uint32_id by lia.
    destruct (_ >? _) eqn:Hgt.
    + apply Z.gtb_lt in Hgt.
      rewrite (seqZ_to_nat _ _ 0) by lia. simpl. by rewrite app_nil_r.
    + rewrite Z.gtb_ltb in Hgt. apply Z.ltb_ge in Hgt.
      rewrite IH by lia.
      rewrite (int64_id (rpcapi.APIrequest.From request)) by lia.
      rewrite (int64_id i) by lia. rewrite int64_id by lia.
      rewrite <- app_assoc. f_equal.
      rewrite (seqZ_cons (rpcapi.APIrequest.From request + i)) by lia.
      simpl. f_equal. f_equal.
      replace (Z.succ (rpcapi.APIrequest.From request + i))
        with (rpcapi.APIrequest.From request + (i + 1)) by lia.
      apply seqZ_to_nat. lia.
Qed.

(** X8. [getBlockList] never fails.  On a chain whose height is below
    [2^32 - 1], and for a start height [From] in [0 .. 2^32 - 1], it lists the blocks at the heights [From], [From+1], ... up to
    the chain height, [ListSize] of them at most and none when [ListSize] is
    not positive or [From] is above the chain height; [ListSize] is not
    clamped.  A height the application has no block for gives a nil
    entry. *)
Theorem getBlockList_spec (r : rpcapi.RPCAPI) (request : rpcapi.APIrequest.t) :
  0 <= rpcapi.APIrequest.From request < 2 ^ 32 →
  0 <= rpcapi.Height (rpcapi.vocapp r) < 2 ^ 32 - 1 →
  rpcapi.getBlockList r request
  = inl (rpcapi.APIresponse.mk None
           ((fun h => rpcapi.blockMetadataFromBlockModel
                        (rpcapi.GetBlockByHeight (rpcapi.scrutinizerApp r) h)
                        true true)
            <$> seqZ (rpcapi.APIrequest.From request)
                     (Z.min (rpcapi.APIrequest.ListSize request)
                        (rpcapi.Height (rpcapi.vocapp r)
                         - rpcapi.APIrequest.From request + 1)))
           []).
Proof.
  intros Hfrom Hh. unfold rpcapi.getBlockList. do 2 f_equal.
  destruct (Z_le_gt_dec (rpcapi.APIrequest.From request)
              (rpcapi.Height (rpcapi.vocapp r) + 1)) as [Hle|Hgt].
  - rewrite getBlockList_loop_spec by lia. simpl.
    rewrite Z.add_0_r. f_equal. apply seqZ_to_nat. lia.
  - rewrite (seqZ_to_nat _ _ 0) by lia. simpl.
    destruct (Z.to_nat (rpcapi.APIrequest.ListSize request)) as [|n]; [done|].
    cbn [rpcapi.getBlockList_loop].
    rewrite (uint32_id (rpcapi.APIrequest.From request)) by lia.
    rewrite (uint32_id 0) by lia. rewrite uint32_id by lia.
    destruct (_ >? _) eqn:Hc; [done|].
    rewrite Z.gtb_ltb in Hc. apply Z.ltb_ge in Hc. lia.
Qed.

Lemma getBlockList_spec_witness :
  rpcapi.getBlockList rpcapi.sampleRPC (rpcapi.APIrequest.mk 2 0 0)
  = inl (rpcapi.APIresponse.mk None
           [None;
            rpcapi.blockMetadataFromBlockModel (Some (rpcapi.sampleBlock 1))
              true true]
           []).
Proof.
  apply (getBlockList_spec rpcapi.sampleRPC (rpcapi.APIrequest.mk 2 0 0)).
  - simpl. lia.
  - simpl. lia.
Defined.

(** The size [getTxListForBlock] works with is between 1 and
    [MaxListSize]. *)
Lemma listSize_bounds (d : rpcapi.Deps) (request : rpcapi.APIrequest.t) :
  1 <= rpcapi.MaxListSize d →
  1 <= rpcapi.listSize d request <= rpcapi.MaxListSize d.
Proof.
  intros Hmax. unfold rpcapi.listSize.
  destruct (_ >? _) eqn:H1; simpl; [lia|].
  destruct (_ <=? _) eqn:H2; [lia|].
  rewrite Z.gtb_ltb in H1. apply Z.ltb_ge in H1. apply Z.leb_gt in H2. lia.
Qed.

(** The loop of [getTxListForBlock], started at a non-negative index with
    the iterations left up to [maxIndex]: it appends the metadata of the
    transactions from that index on, or returns the first error. *)
Lemma getTxListForBlock_loop_spec (d : rpcapi.Deps) (txs : list (list byte))
    (n : nat) (i maxIndex : Z) (acc : list rpcapi.TxMetadata.t) :
  0 <= i →
  Z.to_nat (maxIndex - i) = n →
  rpcapi.getTxListForBlock_loop d txs n i maxIndex acc
  = Some (match rpcapi.txMetadataFrom d i (take n (drop (Z.to_nat i) txs)) with
          | inl l => inl (acc ++ l)%list
          | inr err => inr err
          end).
Proof.
  revert i acc. induction n as [|n IH]; intros i acc Hi Hn.
  - simpl. by rewrite app_nil_r.
  - cbn [rpcapi.getTxListForBlock_loop].
    assert ((i <? maxIndex) = true) as -> by (apply Z.ltb_lt; lia). simpl.
    destruct (i <? Z.of_nat (length txs)) eqn:Hlen.
    + apply Z.ltb_lt in Hlen.
      assert ((i <? 0) = false) as -> by (apply Z.ltb_ge; lia).
      destruct (lookup_lt_is_Some_2 txs (Z.to_nat i)) as [raw Hraw]; [lia|].
      rewrite Hraw. simpl.
      rewrite (drop_S _ _ _ Hraw). simpl.
      destruct (rpcapi.decodeTxType d raw) as [ty|err]; [|done].
      rewrite IH by lia.
      replace (Z.to_nat (i + 1)) with (S (Z.to_nat i)) by lia.
      destruct (rpcapi.txMetadataFrom d (i + 1) _) as [l|err]; [|done].
      by rewrite <- app_assoc.
    + apply Z.ltb_ge in Hlen.
      rewrite drop_ge by lia. rewrite take_nil. simpl. by rewrite app_nil_r.
Qed.

(** The metadata [txMetadataFrom] returns: one entry per transaction, in
    order, with its index in the block, its hash and the name of its
    type. *)
Lemma txMetadataFrom_entries (d : rpcapi.Deps) (raws : list (list byte)) :
  ∀ (i : Z) (l : list rpcapi.TxMetadata.t),
    rpcapi.txMetadataFrom d i raws = inl l →
    length l = length raws
    ∧ ∀ (k : nat) (m : rpcapi.TxMetadata.t),
        l !! k = Some m →
        rpcapi.TxMetadata.Index m = int32 (i + Z.of_nat k)
        ∧ ∃ raw, raws !! k = Some raw
            ∧ rpcapi.TxMetadata.Hash m = rpcapi.txHash d raw
            ∧ rpcapi.decodeTxType d raw = inl (rpcapi.TxMetadata.Type_ m).
Proof.
  induction raws as [|raw rest IH]; intros i l; simpl.
  - intros [= <-]. split; [done|]. intros k m Hk. by rewrite lookup_nil in Hk.
  - destruct (rpcapi.decodeTxType d raw) as [ty|err] eqn:Hty; [|done].
    destruct (rpcapi.txMetadataFrom d (i + 1) rest) as [l'|err] eqn:Hrest;
      [|done].
    intros [= <-]. destruct (IH _ _ Hrest) as [Hlen Hent].
    split; [simpl; by rewrite Hlen|].
    intros [|k] m Hk; simpl in Hk.
    + injection Hk as <-. simpl. split; [f_equal; lia|]. by exists raw.
    + destruct (Hent k m Hk) as [Hidx Hraw]. split; [|done].
      rewrite Hidx. f_equal. lia.
Qed.

(** X9. For an existing block and a start index [From >= 0],
    [getTxListForBlock] never indexes out of range, and its result is
    determined by the transactions of the block at the positions [From] to
    [From + listSize - 1], where the list size is the requested one if it
    lies in [1 .. MaxListSize] and [MaxListSize] otherwise: the metadata of
    these transactions, or the error of the first of them that does not
    decode (then no partial list is returned). *)
Theorem getTxListForBlock_spec (d : rpcapi.Deps) (r : rpcapi.RPCAPI)
    (request : rpcapi.APIrequest.t) (block : rpcapi.Block.t) :
  rpcapi.GetBlockByHeight (rpcapi.vocapp r)
    (rpcapi.int64 (rpcapi.APIrequest.Height request)) = Some block →
  1 <= rpcapi.MaxListSize d →
  0 <= rpcapi.APIrequest.From request →
  rpcapi.APIrequest.From request + rpcapi.MaxListSize d < 2 ^ 63 →
  rpcapi.getTxListForBlock d r request
  = Some (match rpcapi.txMetadataFrom d (rpcapi.APIrequest.From request)
                  (take (Z.to_nat (rpcapi.listSize d request))
                     (drop (Z.to_nat (rpcapi.APIrequest.From request))
                        (rpcapi.Block.Txs block))) with
          | inl l => inl (rpcapi.APIresponse.mk None [] l)
          | inr err => inr err
          end).
Proof.
  intros Hblock Hmax Hfrom Hov. unfold rpcapi.getTxListForBlock.
  rewrite Hblock. cbv zeta. fold (rpcapi.listSize d request).
  pose proof (listSize_bounds d request Hmax) as HL.
  rewrite int64_id by lia.
  replace (rpcapi.APIrequest.From request + rpcapi.listSize d request
           - rpcapi.APIrequest.From request)
    with (rpcapi.listSize d request) by lia.
  rewrite (getTxListForBlock_loop_spec d _ (Z.to_nat (rpcapi.listSize d request)))
    by lia.
  by destruct (rpcapi.txMetadataFrom d _ _).
Qed.

Lemma getTxListForBlock_spec_witness :
  rpcapi.getTxListForBlock rpcapi.sampleDeps rpcapi.sampleRPC
    (rpcapi.APIrequest.mk 1 1 3)
  = Some (inl (rpcapi.APIresponse.mk None []
                 [rpcapi.TxMetadata.mk "newProcess" 1
                    (rpcapi.sampleTx "p" ++ rpcapi.sampleTx "p")%list])).
Proof.
  apply (getTxListForBlock_spec rpcapi.sampleDeps rpcapi.sampleRPC
           (rpcapi.APIrequest.mk 1 1 3) (rpcapi.sampleBlock 3)).
  - reflexivity.
  - simpl. lia.
  - simpl. lia.
  - simpl. lia.
Defined.

(** X10. When [getTxListForBlock] returns a list for a start index
    [From >= 0], the list has at most [MaxListSize] entries, and its [k]-th
    entry describes the transaction at position [From + k] of the block: it
    carries that position as its index, the hash of that transaction and
    the name of its type. *)
Theorem getTxListForBlock_entries (d : rpcapi.Deps) (r : rpcapi.RPCAPI)
    (request : rpcapi.APIrequest.t) (block : rpcapi.Block.t)
    (resp : rpcapi.APIresponse.t) :
  rpcapi.GetBlockByHeight (rpcapi.vocapp r)
    (rpcapi.int64 (rpcapi.APIrequest.Height request)) = Some block →
  1 <= rpcapi.MaxListSize d →
  0 <= rpcapi.APIrequest.From request →
  rpcapi.APIrequest.From request + rpcapi.MaxListSize d < 2 ^ 63 →
  rpcapi.getTxListForBlock d r request = Some (inl resp) →
  Z.of_nat (length (rpcapi.APIresponse.TxList resp)) <= rpcapi.MaxListSize d
  ∧ ∀ (k : nat) (m : rpcapi.TxMetadata.t),
      rpcapi.APIresponse.TxList resp !! k = Some m →
      rpcapi.TxMetadata.Index m
      = int32 (rpcapi.APIrequest.From request + Z.of_nat k)
      ∧ ∃ raw,
          rpcapi.Block.Txs block
            !! (Z.to_nat (rpcapi.APIrequest.From request) + k)%nat = Some raw
          ∧ rpcapi.TxMetadata.Hash m = rpcapi.txHash d raw
          ∧ rpcapi.decodeTxType d raw = inl (rpcapi.TxMetadata.Type_ m).
Proof.
  intros Hblock Hmax Hfrom Hov.
  pose proof (listSize_bounds d request Hmax) as HL.
  unfold rpcapi.getTxListForBlock. rewrite Hblock. cbv zeta.
  fold (rpcapi.listSize d request). rewrite int64_id by lia.
  replace (rpcapi.APIrequest.From request + rpcapi.listSize d request
           - rpcapi.APIrequest.From request)
    with (rpcapi.listSize d request) by lia.
  rewrite (getTxListForBlock_loop_spec d _ (Z.to_nat (rpcapi.listSize d request)))
    by lia.
  destruct (rpcapi.txMetadataFrom d _ _) as [l|err] eqn:Hl; [|done].
  intros [= <-]. simpl.
  destruct (txMetadataFrom_entries d _ _ _ Hl) as [Hlen Hent]. split.
  - rewrite Hlen, length_take. lia.
  - intros k m Hk. destruct (Hent k m Hk) as (Hidx & raw & Hraw & Hh & Hty).
    split; [done|]. exists raw. split; [|done].
    apply lookup_take_Some in Hraw as [Hraw _]. by rewrite lookup_drop in Hraw.
Qed.

Lemma getTxListForBlock_entries_witness :
  Z.of_nat (length (rpcapi.APIresponse.TxList
     (rpcapi.APIresponse.mk None []
        [rpcapi.TxMetadata.mk "newProcess" 1
           (rpcapi.sampleTx "p" ++ rpcapi.sampleTx "p")%list])))
  <= rpcapi.MaxListSize rpcapi.sampleDeps.
Proof.
  refine (proj1 (getTxListForBlock_entries rpcapi.sampleDeps rpcapi.sampleRPC
                   (rpcapi.APIrequest.mk 1 1 3) (rpcapi.sampleBlock 3)
                   (rpcapi.APIresponse.mk None []
                      [rpcapi.TxMetadata.mk "newProcess" 1
                         (rpcapi.sampleTx "p" ++ rpcapi.sampleTx "p")%list])
                   _ _ _ _ _)).
  - reflexivity.
  - simpl. lia.
  - simpl. lia.
  - simpl. lia.
  - vm_compute. reflexivity.
Defined.

(** X11. For an existing block, a negative start index [From] makes
    [getTxListForBlock] enter its loop with [i = From] and index
    [block.Txs] out of range, whatever the block holds and whatever the
    requested list size. *)
Theorem getTxListForBlock_negative_From (d : rpcapi.Deps) (r : rpcapi.RPCAPI)
    (request : rpcapi.APIrequest.t) (block : rpcapi.Block.t) :
  rpcapi.GetBlockByHeight (rpcapi.vocapp r)
    (rpcapi.int64 (rpcapi.APIrequest.Height request)) = Some block →
  1 <= rpcapi.MaxListSize d < 2 ^ 63 →
  - 2 ^ 63 <= rpcapi.APIrequest.From request < 0 →
  rpcapi.getTxListForBlock d r request = None.
Proof.
  intros Hblock Hmax Hfrom. unfold rpcapi.getTxListForBlock.
  rewrite Hblock. cbv zeta. fold (rpcapi.listSize d request).
  pose proof (listSize_bounds d request (proj1 Hmax)) as HL.
  rewrite int64_id by lia.
  destruct (Z.to_nat _) as [|n] eqn:Hn; [lia|].
  cbn [rpcapi.getTxListForBlock_loop].
  assert ((rpcapi.APIrequest.From request
           <? rpcapi.APIrequest.From request + rpcapi.listSize d request) = true)
    as -> by (apply Z.ltb_lt; lia).
  assert ((rpcapi.APIrequest.From request
           <? Z.of_nat (length (rpcapi.Block.Txs block))) = true)
    as -> by (apply Z.ltb_lt; lia).
  assert ((rpcapi.APIrequest.From request <? 0) = true)
    as -> by (apply Z.ltb_lt; lia).
  reflexivity.
Qed.

Lemma getTxListForBlock_negative_From_witness :
  rpcapi.getTxListForBlock rpcapi.sampleDeps rpcapi.sampleRPC
    (rpcapi.APIrequest.mk 1 (-1) 3) = None.
Proof.
  apply (getTxListForBlock_negative_From rpcapi.sampleDeps rpcapi.sampleRPC
           (rpcapi.APIrequest.mk 1 (-1) 3) (rpcapi.sampleBlock 3)).
  - reflexivity.
  - simpl. lia.
  - simpl. lia.
Defined.

(** ** The registry and the dispatcher together *)

(** X14. Once [AddNamespace] has registered a name, whatever the state
    before, getRoot on that name answers with the root of a freshly
    initialised tree; requests on every other census id get the response
    they got before the registration. *)
Theorem AddNamespace_Handler {Tree : Type} (T : TreeOps Tree) (now : Z)
    (r : CensusRequest.t) (isAuth : bool) (name pubKey : string)
    (s : State Tree) :
  (CensusRequest.CensusID r = name →
   CensusRequest.Method r = "getRoot" →
   Handler T now r isAuth (AddNamespace T name pubKey s)
   = Some (CensusResponse.set_Root (GetRoot T (Init T name)) (success now),
           AddNamespace T name pubKey s))
  ∧ (CensusRequest.CensusID r ≠ name →
     fst <$> Handler T now r isAuth (AddNamespace T name pubKey s)
     = fst <$> Handler T now r isAuth s).
Proof.
  split.
  - intros Hid Hm. apply Handler_getRoot; [|done].
    unfold AddNamespace. simpl. by rewrite map_size_0, Hid, lookup_insert_eq.
  - intros Hid. apply Handler_response_local.
    unfold AddNamespace. simpl. by rewrite map_size_0, lookup_insert_ne.
Qed.

(** X15. Through [HTTPhandler], a request that decodes to an addClaim on a
    registered census reaches the tree whatever its signature and
    timestamp: after the call the census is bound to the tree [AddClaim]
    left behind. *)
Theorem HTTPhandler_addClaim {Tree : Type} (T : TreeOps Tree) (json : JsonOps)
    (signer : SignOps) (now : Z) (req : HttpRequest) (body : string)
    (rm : CensusRequestMessage.t) (s : State Tree) (live : Tree) :
  Body req = Some body →
  Decode json body = (rm, None) →
  CensusRequest.Method (CensusRequestMessage.Request rm) = "addClaim" →
  MkTrees s !! CensusRequest.CensusID (CensusRequestMessage.Request rm)
  = Some live →
  ∃ w s',
    HTTPhandler T json now req signer s = Some (w, s')
    ∧ MkTrees s' !! CensusRequest.CensusID (CensusRequestMessage.Request rm)
      = Some (AddClaim T live
                (bytes (CensusRequest.ClaimData (CensusRequestMessage.Request rm)))).1.
Proof.
  intros Hbody Hdec Hm Hlive.
  rewrite (HTTPhandler_dispatch T json signer now req body rm s Hbody Hdec)
    by (rewrite Hm; discriminate).
  handler_registered Hlive. rewrite Hm. simpl.
  destruct (AddClaim T live _) as [live' [e|]]; simpl;
    eexists _, _; (split; [done|]); simpl; by rewrite lookup_insert_eq.
Qed.

Lemma HTTPhandler_addClaim_witness :
  ∃ w s',
    HTTPhandler ListTree.ops ListTree.codec 100
                {| Body := Some "add-bob-forged" |} ListTree.signer census1_alice
    = Some (w, s')
    ∧ MkTrees s' !! "census1" = Some ["alice"; "bob"].
Proof.
  apply (HTTPhandler_addClaim ListTree.ops ListTree.codec ListTree.signer 100
           {| Body := Some "add-bob-forged" |} "add-bob-forged"
           (CensusRequestMessage.mk "req1"
              (CensusRequest.mk "addClaim" "census1" "" "bob" "" 999) "forged")
           census1_alice ["alice"]).
  - reflexivity.
  - reflexivity.
  - reflexivity.
  - vm_compute. reflexivity.
Defined.
